(** * MCPClient (python/terminal-mcp-orchestrator/mcp_client.py)

    A shallow embedding of the SSE-based tool-invocation client: the
    client's attributes as a record, the background SSE listener thread as
    a small per-thread program counter driven by a schedule of inputs, and
    [connect], [get_tools], [invoke_tool], [_send_tool_invocation] and
    [disconnect] as functions over the shared client object.  Points where
    the caller blocks ([Event.wait], [Thread.join]) take the schedule of
    listener steps that run while it is blocked, so the interleavings of
    the two threads are explicit arguments. *)

From Stdlib Require Import List String Ascii ZArith Bool Lia.
Import ListNotations.
Open Scope string_scope.
Set Warnings "-register-all".

(** ** Python values produced by [json.loads]

    Python's [None] is [JNull].  Numbers are integers; floats are not
    modelled. *)

Inductive json : Type :=
| JNull
| JBool (b : bool)
| JNum (z : Z)
| JStr (s : string)
| JArr (l : list json)
| JObj (l : list (string * json)).

(** [dict.get(k, default)] on a decoded object: [json.loads] keeps the
    last binding of a duplicated key. *)
Fixpoint obj_lookup (o : list (string * json)) (k : string) : option json :=
  match o with
  | [] => None
  | (k', v) :: o' =>
      match obj_lookup o' k with
      | Some w => Some w
      | None => if String.eqb k k' then Some v else None
      end
  end.

Definition obj_get (o : list (string * json)) (k : string) (default : json) : json :=
  match obj_lookup o k with Some v => v | None => default end.

(** Python truthiness. *)
Definition py_truthy (v : json) : bool :=
  match v with
  | JNull => false
  | JBool b => b
  | JNum z => negb (Z.eqb z 0)
  | JStr s => negb (String.eqb s "")
  | JArr l => match l with [] => false | _ => true end
  | JObj l => match l with [] => false | _ => true end
  end.

(** [v == "s"] for a decoded value and a string literal. *)
Definition is_str (v : json) (s : string) : bool :=
  match v with JStr s' => String.eqb s' s | _ => false end.

(** ** Exceptions and results *)

Inductive exn : Type :=
| TimeoutError (msg : string)
| KeyError
| TypeError
| AttributeError
| JSONDecodeError
| RequestException (msg : string).

Inductive result (A : Type) : Type :=
| Ok (a : A)
| Raise (e : exn).
Arguments Ok {A} a.
Arguments Raise {A} e.

Definition rbind {A B} (m : result A) (k : A -> result B) : result B :=
  match m with Ok a => k a | Raise e => Raise e end.

Notation "'let*' x := m 'in' k" := (rbind m (fun x => k))
  (at level 200, x name, m at level 100, k at level 200).

(** ** Dictionary keys

    Keys of [tool_results] and [tool_events] are the hashable values a
    decoded [id] field can be: [None], integers (with [True]/[False] equal
    to [1]/[0], as in Python) and strings.  Lists and dicts are unhashable:
    using one as a key raises [TypeError]. *)

Inductive key : Type :=
| KNone
| KInt (z : Z)
| KStr (s : string).

Definition key_eqb (a b : key) : bool :=
  match a, b with
  | KNone, KNone => true
  | KInt x, KInt y => Z.eqb x y
  | KStr x, KStr y => String.eqb x y
  | _, _ => false
  end.

Lemma key_eqb_eq : forall a b, key_eqb a b = true <-> a = b.
Proof.
  intros [| x | x] [| y | y]; simpl; split; intro H; try discriminate; auto.
  - apply Z.eqb_eq in H; subst; reflexivity.
  - inversion H; subst; apply Z.eqb_refl.
  - apply String.eqb_eq in H; subst; reflexivity.
  - inversion H; subst; apply String.eqb_refl.
Qed.

Lemma key_eqb_refl : forall a, key_eqb a a = true.
Proof. intro a; apply key_eqb_eq; reflexivity. Qed.

Definition to_key (v : json) : option key :=
  match v with
  | JNull => Some KNone
  | JBool b => Some (KInt (if b then 1 else 0)%Z)
  | JNum z => Some (KInt z)
  | JStr s => Some (KStr s)
  | JArr _ | JObj _ => None
  end.

(** A Python dict as an association list in insertion order. *)
Definition dict (A : Type) := list (key * A).

Fixpoint dict_get {A} (d : dict A) (k : key) : option A :=
  match d with
  | [] => None
  | (k', v) :: d' => if key_eqb k k' then Some v else dict_get d' k
  end.

(** [d[k] = v]: replaces the value in place, or appends a new entry. *)
Fixpoint dict_set {A} (d : dict A) (k : key) (v : A) : dict A :=
  match d with
  | [] => [(k, v)]
  | (k', v') :: d' =>
      if key_eqb k k' then (k', v) :: d' else (k', v') :: dict_set d' k v
  end.

(** [del d[k]]: [None] stands for the [KeyError] of a missing key. *)
Fixpoint dict_del {A} (d : dict A) (k : key) : option (dict A) :=
  match d with
  | [] => None
  | (k', v') :: d' =>
      if key_eqb k k' then Some d'
      else match dict_del d' k with
           | Some d'' => Some ((k', v') :: d'')
           | None => None
           end
  end.

Definition dict_mem {A} (d : dict A) (k : key) : bool :=
  match dict_get d k with Some _ => true | None => false end.

(** ** A decoder for the JSON texts used in the concrete runs below

    The theorems take [json.loads] as an arbitrary function
    [string -> option json] ([None] is a [JSONDecodeError]).  Concrete
    runs use [mini_loads]: it decodes objects, arrays, strings without
    escape sequences, integers, [true], [false] and [null], and answers
    [None] on anything else. *)

Definition dq : string := String (ascii_of_nat 34) EmptyString.
Definition q (s : string) : string := dq ++ s ++ dq.

Definition is_ws (c : ascii) : bool :=
  match nat_of_ascii c with 32%nat | 9%nat | 10%nat | 13%nat => true | _ => false end.

Fixpoint skip_ws (l : list ascii) : list ascii :=
  match l with
  | c :: r => if is_ws c then skip_ws r else l
  | [] => []
  end.

Definition digit (c : ascii) : option Z :=
  let n := nat_of_ascii c in
  if (48 <=? n)%nat && (n <=? 57)%nat then Some (Z.of_nat (n - 48)) else None.

Fixpoint read_digits (l : list ascii) (acc : Z) : Z * list ascii :=
  match l with
  | c :: r => match digit c with
              | Some d => read_digits r (acc * 10 + d)%Z
              | None => (acc, l)
              end
  | [] => (acc, [])
  end.

Definition read_int (l : list ascii) : option (Z * list ascii) :=
  match l with
  | c :: r =>
      if Ascii.eqb c "-"%char then
        match r with
        | c' :: _ => match digit c' with
                     | Some _ => let (z, r') := read_digits r 0%Z in Some (Z.opp z, r')
                     | None => None
                     end
        | [] => None
        end
      else match digit c with
           | Some _ => Some (read_digits l 0%Z)
           | None => None
           end
  | [] => None
  end.

Fixpoint read_str (l : list ascii) (acc : list ascii) : option (string * list ascii) :=
  match l with
  | c :: r =>
      if Ascii.eqb c (ascii_of_nat 34) then Some (string_of_list_ascii (rev acc), r)
      else if Ascii.eqb c (ascii_of_nat 92) then None
      else read_str r (c :: acc)
  | [] => None
  end.

Fixpoint read_word (w : list ascii) (l : list ascii) : option (list ascii) :=
  match w, l with
  | [], _ => Some l
  | a :: w', b :: l' => if Ascii.eqb a b then read_word w' l' else None
  | _ :: _, [] => None
  end.

Fixpoint pvalue (fuel : nat) (l : list ascii) : option (json * list ascii) :=
  match fuel with
  | O => None
  | S f =>
      match skip_ws l with
      | [] => None
      | c :: r =>
          if Ascii.eqb c (ascii_of_nat 34) then
            match read_str r [] with Some (s, r') => Some (JStr s, r') | None => None end
          else if Ascii.eqb c "["%char then
            match skip_ws r with
            | c' :: r' => if Ascii.eqb c' "]"%char then Some (JArr [], r') else pelems f r []
            | [] => None
            end
          else if Ascii.eqb c "{"%char then
            match skip_ws r with
            | c' :: r' => if Ascii.eqb c' "}"%char then Some (JObj [], r') else pmembers f r []
            | [] => None
            end
          else match read_word (list_ascii_of_string "null") (c :: r) with
          | Some r' => Some (JNull, r')
          | None => match read_word (list_ascii_of_string "true") (c :: r) with
          | Some r' => Some (JBool true, r')
          | None => match read_word (list_ascii_of_string "false") (c :: r) with
          | Some r' => Some (JBool false, r')
          | None => match read_int (c :: r) with
                    | Some (z, r') => Some (JNum z, r')
                    | None => None
                    end
          end end end
      end
  end
with pelems (fuel : nat) (l : list ascii) (acc : list json) : option (json * list ascii) :=
  match fuel with
  | O => None
  | S f =>
      match pvalue f l with
      | Some (v, r) =>
          match skip_ws r with
          | c :: r' =>
              if Ascii.eqb c ","%char then pelems f r' (v :: acc)
              else if Ascii.eqb c "]"%char then Some (JArr (rev (v :: acc)), r')
              else None
          | [] => None
          end
      | None => None
      end
  end
with pmembers (fuel : nat) (l : list ascii) (acc : list (string * json))
  : option (json * list ascii) :=
  match fuel with
  | O => None
  | S f =>
      match skip_ws l with
      | c :: r =>
          if Ascii.eqb c (ascii_of_nat 34) then
            match read_str r [] with
            | Some (k, r1) =>
                match skip_ws r1 with
                | c1 :: r2 =>
                    if Ascii.eqb c1 ":"%char then
                      match pvalue f r2 with
                      | Some (v, r3) =>
                          match skip_ws r3 with
                          | c3 :: r4 =>
                              if Ascii.eqb c3 ","%char then pmembers f r4 ((k, v) :: acc)
                              else if Ascii.eqb c3 "}"%char
                              then Some (JObj (rev ((k, v) :: acc)), r4)
                              else None
                          | [] => None
                          end
                      | None => None
                      end
                    else None
                | [] => None
                end
            | None => None
            end
          else None
      | [] => None
      end
  end.

Definition mini_loads (s : string) : option json :=
  let l := list_ascii_of_string s in
  match pvalue (3 * List.length l + 3) l with
  | Some (v, r) => match skip_ws r with [] => Some v | _ => None end
  | None => None
  end.

Example mini_loads_connected :
  mini_loads ("{" ++ q "type" ++ ": " ++ q "connected" ++ ", " ++ q "clientId" ++ ": "
              ++ q "abc123" ++ "}")
  = Some (JObj [("type", JStr "connected"); ("clientId", JStr "abc123")]).
Proof. reflexivity. Qed.

Example mini_loads_nested :
  mini_loads ("{" ++ q "files" ++ ":[" ++ q "a.txt" ++ "]," ++ q "n" ++ ":-12,"
              ++ q "ok" ++ ":true," ++ q "x" ++ ":null," ++ q "d" ++ ":{}}")
  = Some (JObj [("files", JArr [JStr "a.txt"]); ("n", JNum (-12)); ("ok", JBool true);
                ("x", JNull); ("d", JObj [])]).
Proof. reflexivity. Qed.

Example mini_loads_garbage : mini_loads "not json" = None.
Proof. reflexivity. Qed.

(** ** The client object *)

(** Outbound requests issued through [requests], and the registration of
    a wait handle in [tool_events]; the client's [trace] lists them in the
    order they happen. *)
Inductive request : Type :=
| GetSse (url : string)
| GetTools (url : string)
| PostMessages (url : string) (payload : json).

Inductive action : Type :=
| ANet (r : request)
| ARegister (k : key).

(** [self.*] of [MCPClient].  [sse_thread] is the index of the started
    [threading.Thread] in [threads] below; each [threading.Event] in
    [tool_events] is represented by its flag. *)
Record client : Type := mkClient {
  server_url : string;
  client_id : json;
  sse_thread : option nat;
  running : bool;
  connected : bool;
  tools_cache : json;
  tool_results : dict json;
  tool_events : dict bool;
  connection_event : bool;
  trace : list action
}.

Definition set_client_id (s : client) (v : json) : client :=
  {| server_url := server_url s; client_id := v; sse_thread := sse_thread s;
     running := running s; connected := connected s; tools_cache := tools_cache s;
     tool_results := tool_results s; tool_events := tool_events s;
     connection_event := connection_event s; trace := trace s |}.

Definition set_sse_thread (s : client) (v : option nat) : client :=
  {| server_url := server_url s; client_id := client_id s; sse_thread := v;
     running := running s; connected := connected s; tools_cache := tools_cache s;
     tool_results := tool_results s; tool_events := tool_events s;
     connection_event := connection_event s; trace := trace s |}.

Definition set_running (s : client) (v : bool) : client :=
  {| server_url := server_url s; client_id := client_id s; sse_thread := sse_thread s;
     running := v; connected := connected s; tools_cache := tools_cache s;
     tool_results := tool_results s; tool_events := tool_events s;
     connection_event := connection_event s; trace := trace s |}.

Definition set_connected (s : client) (v : bool) : client :=
  {| server_url := server_url s; client_id := client_id s; sse_thread := sse_thread s;
     running := running s; connected := v; tools_cache := tools_cache s;
     tool_results := tool_results s; tool_events := tool_events s;
     connection_event := connection_event s; trace := trace s |}.

Definition set_tools_cache (s : client) (v : json) : client :=
  {| server_url := server_url s; client_id := client_id s; sse_thread := sse_thread s;
     running := running s; connected := connected s; tools_cache := v;
     tool_results := tool_results s; tool_events := tool_events s;
     connection_event := connection_event s; trace := trace s |}.

Definition set_tool_results (s : client) (v : dict json) : client :=
  {| server_url := server_url s; client_id := client_id s; sse_thread := sse_thread s;
     running := running s; connected := connected s; tools_cache := tools_cache s;
     tool_results := v; tool_events := tool_events s;
     connection_event := connection_event s; trace := trace s |}.

Definition set_tool_events (s : client) (v : dict bool) : client :=
  {| server_url := server_url s; client_id := client_id s; sse_thread := sse_thread s;
     running := running s; connected := connected s; tools_cache := tools_cache s;
     tool_results := tool_results s; tool_events := v;
     connection_event := connection_event s; trace := trace s |}.

Definition set_connection_event (s : client) (v : bool) : client :=
  {| server_url := server_url s; client_id := client_id s; sse_thread := sse_thread s;
     running := running s; connected := connected s; tools_cache := tools_cache s;
     tool_results := tool_results s; tool_events := tool_events s;
     connection_event := v; trace := trace s |}.

Definition log (s : client) (a : action) : client :=
  {| server_url := server_url s; client_id := client_id s; sse_thread := sse_thread s;
     running := running s; connected := connected s; tools_cache := tools_cache s;
     tool_results := tool_results s; tool_events := tool_events s;
     connection_event := connection_event s; trace := (trace s ++ [a])%list |}.

(** [server_url.rstrip('/')] *)
Fixpoint rstrip_slash_rev (l : list ascii) : list ascii :=
  match l with
  | c :: r => if Ascii.eqb c "/"%char then rstrip_slash_rev r else l
  | [] => []
  end.

Definition rstrip_slash (s : string) : string :=
  string_of_list_ascii (rev (rstrip_slash_rev (rev (list_ascii_of_string s)))).

(** [MCPClient.__init__] *)
Definition init_client (url : string) : client :=
  {| server_url := rstrip_slash url; client_id := JNull; sse_thread := None;
     running := false; connected := false; tools_cache := JNull;
     tool_results := []; tool_events := []; connection_event := false; trace := [] |}.

(** The listener threads: where each one is in [_sse_listener]. *)
Inductive lpc : Type :=
| LStart   (* started, [requests.get(.../sse)] not answered yet *)
| LLoop    (* inside [for event in client.events()] *)
| LEnd.    (* the thread has returned *)

(** What the network delivers to a listener thread next. *)
Inductive linput : Type :=
| LOpenOk                 (* the GET /sse response arrives with a success status *)
| LFail (msg : string)    (* a transport error, while opening or reading the stream *)
| LEvent (data : string)  (* the next SSE event, with its [data] field *)
| LStreamEnd.             (* the stream ends normally *)

Record config : Type := mkConfig {
  cl : client;
  threads : list lpc
}.

(** A schedule: which listener thread takes which input, in order. *)
Definition sched := list (nat * linput).

(** Replies of [requests.get] / [requests.post] after [raise_for_status()]. *)
Inductive http_resp : Type :=
| HttpFail (msg : string)
| HttpOk (body : string).

Fixpoint digits_rev (fuel n : nat) : string :=
  match fuel with
  | O => ""
  | S f =>
      let d := String (ascii_of_nat (48 + n mod 10)) "" in
      if (n <? 10)%nat then d else digits_rev f (n / 10) ++ d
  end.

(** [str(n)] for a non-negative [int]. *)
Definition nat_to_string (n : nat) : string := digits_rev (S n) n.

Example nat_to_string_30 : nat_to_string 30 = "30".
Proof. reflexivity. Qed.

Definition error_dict (msg : string) : json := JObj [("error", JStr msg)].

Fixpoint is_substring (n s : string) : bool :=
  String.prefix n s ||
  match s with EmptyString => false | String _ s' => is_substring n s' end.

(** [needle in v] for a string [needle]. *)
Definition py_in (needle : string) (v : json) : result bool :=
  match v with
  | JObj o => Ok (match obj_lookup o needle with Some _ => true | None => false end)
  | JArr l => Ok (existsb (fun x => is_str x needle) l)
  | JStr s => Ok (is_substring needle s)
  | _ => Raise TypeError
  end.

(** [v[k]] for a string [k]. *)
Definition py_getitem (v : json) (k : string) : result json :=
  match v with
  | JObj o => match obj_lookup o k with Some x => Ok x | None => Raise KeyError end
  | _ => Raise TypeError
  end.

(** [len(v)] is defined. *)
Definition has_len (v : json) : bool :=
  match v with JStr _ | JArr _ | JObj _ => true | _ => false end.

(** [str(e)] of a [JSONDecodeError] raised by [response.json()]; its exact
    text is not modelled. *)
Definition decode_error_msg : string := "JSONDecodeError".

Fixpoint list_set {A} (l : list A) (i : nat) (x : A) : list A :=
  match l, i with
  | [], _ => []
  | _ :: r, O => x :: r
  | y :: r, S i' => y :: list_set r i' x
  end.

Section Client.

(** [json.loads]: [None] is a [JSONDecodeError]. *)
Variable loads : string -> option json.

(** The body of the [try] in the listener loop, for one decoded event. *)
Definition handle_data (s : client) (data : json) : result client :=
  match data with
  | JObj o =>
      let ty := obj_get o "type" JNull in
      if is_str ty "connected" then
        Ok (set_connection_event
              (set_connected (set_client_id s (obj_get o "clientId" JNull)) true) true)
      else if is_str ty "tool_result" then
        match to_key (obj_get o "id" JNull) with
        | None => Raise TypeError
        | Some k =>
            let s1 := set_tool_results s (dict_set (tool_results s) k data) in
            if dict_mem (tool_events s1) k
            then Ok (set_tool_events s1 (dict_set (tool_events s1) k true))
            else Ok s1
        end
      else Ok s
  | _ => Raise AttributeError
  end.

(** The [except Exception] handler of [_sse_listener]. *)
Definition listener_error (s : client) : client :=
  set_connection_event (set_running s false) true.

(** One step of one [_sse_listener] thread. *)
Definition listener_step (s : client) (pc : lpc) (i : linput) : client * lpc :=
  match pc, i with
  | LStart, LOpenOk => (log s (ANet (GetSse (server_url s ++ "/sse"))), LLoop)
  | LStart, LFail _ => (listener_error (log s (ANet (GetSse (server_url s ++ "/sse")))), LEnd)
  | LLoop, LFail _ => (listener_error s, LEnd)
  | LLoop, LStreamEnd => (s, LEnd)
  | LLoop, LEvent d =>
      if negb (running s) then (s, LEnd)
      else if String.eqb d "" then (s, LLoop)
      else match loads d with
           | None => (s, LLoop)
           | Some v =>
               match handle_data s v with
               | Ok s' => (s', LLoop)
               | Raise _ => (listener_error s, LEnd)
               end
           end
  | _, _ => (s, pc)
  end.

Definition thread_step (c : config) (i : nat) (inp : linput) : config :=
  match nth_error (threads c) i with
  | Some pc =>
      let (s', pc') := listener_step (cl c) pc inp in
      mkConfig s' (list_set (threads c) i pc')
  | None => c
  end.

Fixpoint run_sched (c : config) (w : sched) : config :=
  match w with
  | [] => c
  | (i, inp) :: w' => run_sched (thread_step c i inp) w'
  end.

(** [MCPClient.connect]: [w] is what the listener threads do while the
    caller waits on [connection_event] (up to [timeout]). *)
Definition connect (c : config) (w : sched) : config * result json :=
  let s := cl c in
  if connected s then (c, Ok (client_id s))
  else
    let s1 := set_sse_thread (set_running s true) (Some (List.length (threads c))) in
    let c2 := run_sched (mkConfig s1 (threads c ++ [LStart])) w in
    if connection_event (cl c2) then (c2, Ok (client_id (cl c2)))
    else (c2, Raise (TimeoutError "Failed to establish SSE connection within timeout period")).

(** [MCPClient.get_tools]: [r] is the reply to GET /tools. *)
Definition get_tools (c : config) (r : http_resp) : config * result json :=
  let s := cl c in
  if py_truthy (tools_cache s) then (c, Ok (tools_cache s))
  else
    let s1 := log s (ANet (GetTools (server_url s ++ "/tools"))) in
    let attempt : result (client * json) :=
      match r with
      | HttpFail msg => Raise (RequestException msg)
      | HttpOk body =>
          match loads body with
          | None => Raise JSONDecodeError
          | Some (JObj o) =>
              let tools := obj_get o "tools" (JArr []) in
              if has_len tools then Ok (set_tools_cache s1 tools, tools) else Raise TypeError
          | Some _ => Raise AttributeError
          end
      end in
    match attempt with
    | Ok (s2, tools) => (mkConfig s2 (threads c), Ok tools)
    | Raise _ => (mkConfig s1 (threads c), Ok (JArr []))
    end.

(** [MCPClient._send_tool_invocation]: [r] is the reply to POST /messages. *)
Definition send_tool_invocation (s : client) (message_id tool_name : string)
    (parameters : json) (r : http_resp) : client * json :=
  if negb (py_truthy (client_id s)) then (s, error_dict "Not connected. Call connect() first")
  else
    let payload :=
      JObj [("id", JStr message_id); ("type", JStr "invoke_tool");
            ("content", JObj [("name", JStr tool_name); ("parameters", parameters)]);
            ("clientId", client_id s)] in
    let s1 := log s (ANet (PostMessages (server_url s ++ "/messages") payload)) in
    match r with
    | HttpFail msg => (s1, error_dict msg)
    | HttpOk body =>
        match loads body with
        | Some v => (s1, v)
        | None => (s1, error_dict decode_error_msg)
        end
    end.

(** The content extraction at the end of [invoke_tool]. *)
Definition extract_result (tool_result : json) : result json :=
  let fallback := if py_truthy tool_result then tool_result
                  else error_dict "No result received" in
  if negb (py_truthy tool_result) then Ok fallback else
  let* c1 := py_in "content" tool_result in
  if negb c1 then Ok fallback else
  let* inner := py_getitem tool_result "content" in
  let* c2 := py_in "content" inner in
  if negb c2 then Ok fallback else
  let* content_items := py_getitem inner "content" in
  match content_items with
  | JArr (first :: _) =>
      let* c3 := py_in "text" first in
      if negb c3 then Ok fallback else
      let* result_text := py_getitem first "text" in
      match result_text with
      | JStr txt =>
          match loads txt with
          | Some v => Ok v
          | None => Ok (JObj [("text", result_text)])
          end
      | _ => Raise TypeError
      end
  | _ => Ok fallback
  end.

(** [MCPClient.invoke_tool].  [message_id] is the generated
    ["msg-" + uuid4()]; [r] is the reply to POST /messages; [w1] is what
    the listener threads do while the caller waits on its event (up to
    [timeout]), [w2] what they do between the end of that wait and the
    caller's next statement. *)
Definition invoke_tool (c : config) (message_id tool_name : string) (parameters : json)
    (timeout : nat) (r : http_resp) (w1 w2 : sched) : config * result json :=
  let k := KStr message_id in
  let s0 := cl c in
  let s1 := log (set_tool_events s0 (dict_set (tool_events s0) k false)) (ARegister k) in
  let (s2, res) := send_tool_invocation s1 message_id tool_name parameters r in
  let c2 := mkConfig s2 (threads c) in
  match py_in "error" res with
  | Raise e => (c2, Raise e)
  | Ok true => (c2, Ok res)
  | Ok false =>
      let c3 := run_sched c2 w1 in
      match dict_get (tool_events (cl c3)) k with
      | None => (c3, Raise KeyError)
      | Some flag =>
          let c4 := run_sched c3 w2 in
          let s4 := cl c4 in
          if negb flag then
            match dict_del (tool_events s4) k with
            | None => (c4, Raise KeyError)
            | Some ev =>
                (mkConfig (set_tool_events s4 ev) (threads c4),
                 Ok (error_dict ("Timeout waiting for tool result after "
                                 ++ nat_to_string timeout ++ " seconds")))
            end
          else
            let tool_result :=
              match dict_get (tool_results s4) k with Some v => v | None => JNull end in
            match dict_del (tool_events s4) k with
            | None => (c4, Raise KeyError)
            | Some ev =>
                let s5 := set_tool_events s4 ev in
                let s6 := match dict_del (tool_results s5) k with
                          | Some rs => set_tool_results s5 rs
                          | None => s5
                          end in
                (mkConfig s6 (threads c4), extract_result tool_result)
            end
      end
  end.

(** [MCPClient.disconnect]: [w] is what the listener threads do during
    [sse_thread.join(timeout=1)]. *)
Definition disconnect (c : config) (w : sched) : config :=
  let s1 := set_running (cl c) false in
  let c1 := match sse_thread s1 with
            | Some _ => run_sched (mkConfig s1 (threads c)) w
            | None => mkConfig s1 (threads c)
            end in
  mkConfig (set_tools_cache (set_client_id (set_connected (cl c1) false) JNull) JNull)
           (threads c1).

End Client.

Definition init_config (url : string) : config := mkConfig (init_client url) [].

(** ** Concrete runs *)

Definition connected_text : string :=
  "{" ++ q "type" ++ ": " ++ q "connected" ++ ", " ++ q "clientId" ++ ": " ++ q "abc123" ++ "}".

Definition result_text (id : string) : string :=
  "{" ++ q "type" ++ ": " ++ q "tool_result" ++ ", " ++ q "id" ++ ": " ++ q id ++ ", "
  ++ q "content" ++ ": {" ++ q "content" ++ ": [{" ++ q "text" ++ ": " ++ q "hello" ++ "}]}}".

Definition ack_text : string := "{" ++ q "status" ++ ": " ++ q "accepted" ++ "}".

Definition dir_params : json := JObj [("dirPath", JStr ".")].

Definition c0 : config := init_config "http://172.16.16.54:8080/".

(** The handshake arrives while [connect] waits. *)
Definition c_conn : config :=
  fst (connect mini_loads c0 [(0%nat, LOpenOk); (0%nat, LEvent connected_text)]).

Example connect_returns_id :
  snd (connect mini_loads c0 [(0%nat, LOpenOk); (0%nat, LEvent connected_text)])
  = Ok (JStr "abc123").
Proof. reflexivity. Qed.

Example c_conn_state :
  connected (cl c_conn) = true /\ running (cl c_conn) = true /\ threads c_conn = [LLoop]
  /\ server_url (cl c_conn) = "http://172.16.16.54:8080".
Proof. vm_compute. repeat split. Qed.

(** The matching [tool_result] arrives during the wait. *)
Example invoke_success :
  let (c', r) := invoke_tool mini_loads c_conn "msg-1" "readDirectory" dir_params 5
                   (HttpOk ack_text) [(0%nat, LEvent (result_text "msg-1"))] [] in
  r = Ok (JObj [("text", JStr "hello")]) /\ tool_events (cl c') = []
  /\ tool_results (cl c') = [].
Proof. vm_compute. repeat split. Qed.

(** A Python dict never holds a key twice. *)
Definition uniq {A} (d : dict A) : Prop := NoDup (map fst d).

(** The dicts of the client object are well formed. *)
Definition wf (s : client) : Prop := uniq (tool_events s) /\ uniq (tool_results s).

Definition connected_text2 : string :=
  "{" ++ q "type" ++ ": " ++ q "connected" ++ ", " ++ q "clientId" ++ ": " ++ q "zzz999" ++ "}".

(** The wait handle of an invocation, as [invoke_tool] registers it. *)
Definition registered (s : client) (message_id : string) : client :=
  log (set_tool_events s (dict_set (tool_events s) (KStr message_id) false))
      (ARegister (KStr message_id)).

Definition c_reg : config := mkConfig (registered (cl c_conn) "msg-1") (threads c_conn).

Definition list_text : string := "[1, 2]".

(** ** Callers: [main] of mcp_client.py and orchestrator.py *)

(** [MCPClient.get_server_info]: [r] is the reply to GET /info (the
    request is not recorded in [trace]). *)
Definition get_server_info (loads : string -> option json) (r : http_resp) : json :=
  match r with
  | HttpFail _ => JObj []
  | HttpOk body => match loads body with Some v => v | None => JObj [] end
  end.

Definition remote_error (tool_name msg : string) : json :=
  error_dict ("Error executing remote tool " ++ tool_name ++ ": " ++ msg).

Section Callers.

Variable loads : string -> option json.

(** [str(e)] of a raised exception. *)
Variable exn_str : exn -> string.

(** orchestrator.py [execute_remote_tool]: connect, invoke with the
    default timeout of 30 seconds, disconnect; any exception becomes an
    error dict (and skips [disconnect]).  [w_conn] runs during the wait
    of [connect], [join] during that of [disconnect]. *)
Definition execute_remote_tool (server_url tool_name : string) (parameters : json)
    (w_conn : sched) (message_id : string) (r : http_resp) (w1 w2 join : sched)
    : config * json :=
  let (c1, rc) := connect loads (init_config server_url) w_conn in
  match rc with
  | Raise e => (c1, remote_error tool_name (exn_str e))
  | Ok _ =>
      let (c2, ri) := invoke_tool loads c1 message_id tool_name parameters 30 r w1 w2 in
      match ri with
      | Raise e => (c2, remote_error tool_name (exn_str e))
      | Ok v => (disconnect loads c2 join, v)
      end
  end.

(** orchestrator.py [list_available_tools]: connect, [get_tools],
    disconnect; any exception gives [[]]. *)
Definition list_available_tools (server_url : string) (w_conn : sched) (r : http_resp)
    (join : sched) : config * json :=
  let (c1, rc) := connect loads (init_config server_url) w_conn in
  match rc with
  | Raise _ => (c1, JArr [])
  | Ok _ =>
      let (c2, rt) := get_tools loads c1 r in
      match rt with
      | Raise _ => (c2, JArr [])
      | Ok tools => (disconnect loads c2 join, tools)
      end
  end.

(** mcp_client.py [main]: the exit status, the client at exit (none when
    the parameters are rejected before it is created) and the printed
    result.  [sys.exit(1)] in the [except] runs after the [finally]
    clause has called [disconnect]. *)
Definition main_run (server_url tool_name parameters_text : string) (w_conn : sched)
    (info : http_resp) (message_id : string) (r : http_resp) (w1 w2 join : sched)
    : nat * option config * option json :=
  match loads parameters_text with
  | None => (1%nat, None, None)
  | Some parameters =>
      let (c1, rc) := connect loads (init_config server_url) w_conn in
      match rc with
      | Raise _ => (1%nat, Some (disconnect loads c1 join), None)
      | Ok _ =>
          match get_server_info loads info with
          | JObj _ =>
              let (c2, ri) := invoke_tool loads c1 message_id tool_name parameters 30 r w1 w2 in
              match ri with
              | Raise _ => (1%nat, Some (disconnect loads c2 join), None)
              | Ok v => (0%nat, Some (disconnect loads c2 join), Some v)
              end
          | _ => (1%nat, Some (disconnect loads c1 join), None)
          end
      end
  end.

End Callers.

(** ** Parameter parsing of orchestrator.py [parse_arguments] *)

Definition bs_c : ascii := ascii_of_nat 92.
Definition dq_c : ascii := ascii_of_nat 34.
Definition bs : string := String bs_c EmptyString.

Fixpoint has_char (c : ascii) (s : string) : bool :=
  match s with
  | EmptyString => false
  | String a s' => Ascii.eqb c a || has_char c s'
  end.

(** The rest of [s] after the prefix [p], if [s.startswith(p)]. *)
Fixpoint drop_prefix (p s : string) : option string :=
  match p, s with
  | EmptyString, _ => Some s
  | String a p', String b s' => if Ascii.eqb a b then drop_prefix p' s' else None
  | String _ _, EmptyString => None
  end.

Definition startswith (s p : string) : bool :=
  match drop_prefix p s with Some _ => true | None => false end.

(** [s.replace(old, new)] for a non-empty [old]: occurrences are replaced
    left to right without overlap. *)
Fixpoint replace_fuel (fuel : nat) (old new s : string) : string :=
  match fuel with
  | O => s
  | S f =>
      match drop_prefix old s with
      | Some rest => new ++ replace_fuel f old new rest
      | None =>
          match s with
          | EmptyString => EmptyString
          | String c s' => String c (replace_fuel f old new s')
          end
      end
  end.

Definition str_replace (old new s : string) : string :=
  replace_fuel (S (String.length s)) old new s.

Definition input_dict (p : string) : json := JObj [("input", JStr p)].

(** [parameters] after [parse_arguments]; [None] is an omitted argument. *)
Definition parse_parameters (loads : string -> option json) (parameters : option string) : json :=
  match parameters with
  | None | Some EmptyString => JObj []
  | Some p =>
      match loads p with
      | Some v => v
      | None =>
          let cleaned := str_replace (bs ++ bs) bs (str_replace (bs ++ dq) dq p) in
          if startswith cleaned ("{" ++ bs) || startswith cleaned ("{" ++ dq) then
            match loads (str_replace bs "" cleaned) with
            | Some v => v
            | None => input_dict p
            end
          else input_dict p
      end
  end.

(** A JSON text as a shell such as PowerShell passes it on: a backslash
    before every double quote. *)
Fixpoint ps_escape (t : string) : string :=
  match t with
  | EmptyString => EmptyString
  | String a t' =>
      if Ascii.eqb a dq_c then String bs_c (String a (ps_escape t'))
      else String a (ps_escape t')
  end.

(** No POST /messages request in a trace. *)
Definition no_post (t : list action) : Prop :=
  forall u p, ~ In (ANet (PostMessages u p)) t.

Definition tools_text : string := "{" ++ q "tools" ++ ": [1, 2]}".

Definition bad_params_text : string := "{" ++ q "dirPath" ++ ": }".

(** The connection phase used by the runs below: the SSE request succeeds
    and the server sends its [connected] event. *)
Definition w_handshake : sched := [(0%nat, LOpenOk); (0%nat, LEvent connected_text)].

(** ** Lemmas on the model *)

Lemma config_eta : forall c, mkConfig (cl c) (threads c) = c.
Proof. intros [s t]; reflexivity. Qed.

Lemma dict_get_set_same : forall {A} (d : dict A) k v, dict_get (dict_set d k v) k = Some v.
Proof.
  intros A d k v; induction d as [| [k' v'] d IH]; simpl.
  - rewrite key_eqb_refl; reflexivity.
  - destruct (key_eqb k k') eqn:E; simpl.
    + rewrite E; reflexivity.
    + rewrite E; exact IH.
Qed.

Lemma dict_get_set_other : forall {A} (d : dict A) k k' v,
  k' <> k -> dict_get (dict_set d k v) k' = dict_get d k'.
Proof.
  intros A d k k' v Hne; induction d as [| [k0 v0] d IH]; simpl.
  - destruct (key_eqb k' k) eqn:E; [apply key_eqb_eq in E; contradiction | reflexivity].
  - destruct (key_eqb k k0) eqn:E; simpl.
    + apply key_eqb_eq in E; subst k0.
      destruct (key_eqb k' k) eqn:E'; [apply key_eqb_eq in E'; contradiction | reflexivity].
    + destruct (key_eqb k' k0); [reflexivity | exact IH].
Qed.

Lemma list_set_same : forall {A} (l : list A) i x, nth_error l i = Some x -> list_set l i x = l.
Proof.
  intros A l; induction l as [| y l IH]; intros [| i] x H; simpl in *; try discriminate.
  - inversion H; reflexivity.
  - f_equal; apply IH; exact H.
Qed.

Lemma thread_step_running_false : forall loads c i inp,
  running (cl c) = false -> running (cl (thread_step loads c i inp)) = false.
Proof.
  intros loads c i inp H; unfold thread_step.
  destruct (nth_error (threads c) i) as [pc |]; [| exact H].
  destruct pc, inp; simpl; try rewrite H; simpl; auto.
Qed.

Lemma run_sched_running_false : forall loads w c,
  running (cl c) = false -> running (cl (run_sched loads c w)) = false.
Proof.
  intros loads w; induction w as [| [i inp] w IH]; intros c H; simpl; [exact H |].
  apply IH, thread_step_running_false, H.
Qed.

(** ** Claims *)

(** C9: an event whose data is not valid JSON is logged and skipped: the
    client object (identity, connected flag, [tool_results],
    [tool_events], ...) is unchanged, and when the listener is running it
    stays in its loop. *)
Theorem malformed_event_ignored : forall loads c i d,
  nth_error (threads c) i = Some LLoop -> loads d = None ->
  cl (run_sched loads c [(i, LEvent d)]) = cl c
  /\ (running (cl c) = true -> run_sched loads c [(i, LEvent d)] = c).
Proof.
  intros loads c i d Hpc Hd; simpl; unfold thread_step; rewrite Hpc; simpl.
  destruct (running (cl c)) eqn:Hr; simpl.
  - destruct (String.eqb d ""); [| rewrite Hd];
      (split; [reflexivity | intros _; rewrite (list_set_same _ _ _ Hpc); apply config_eta]).
  - split; [reflexivity | discriminate].
Qed.

Lemma malformed_event_ignored_witness :
  (nth_error (threads c_conn) 0 = Some LLoop /\ mini_loads "not json" = None
   /\ running (cl c_conn) = true)
  /\ run_sched mini_loads c_conn [(0%nat, LEvent "not json")] = c_conn.
Proof.
  assert (H1 : nth_error (threads c_conn) 0 = Some LLoop) by (vm_compute; reflexivity).
  assert (H2 : mini_loads "not json" = None) by reflexivity.
  assert (H3 : running (cl c_conn) = true) by (vm_compute; reflexivity).
  split; [auto |].
  apply (proj2 (malformed_event_ignored mini_loads c_conn 0 "not json" H1 H2)), H3.
Defined.

Definition result_obj (id : string) : json :=
  JObj [("type", JStr "tool_result"); ("id", JStr id);
        ("content", JObj [("content", JArr [JObj [("text", JStr "hello")]])])].

Example result_text_late : mini_loads (result_text "msg-late") = Some (result_obj "msg-late").
Proof. reflexivity. Qed.

(** C1 (as the code does it): a [tool_result] event whose identifier has
    no wait handle in [tool_events] is not discarded: the listener stores
    its payload in [tool_results] under that identifier and signals
    nothing; [tool_events], every other [tool_results] entry and the rest
    of the client object are unchanged. *)
Theorem late_result_stored : forall loads c i d o k,
  nth_error (threads c) i = Some LLoop -> running (cl c) = true -> d <> "" ->
  loads d = Some (JObj o) -> obj_get o "type" JNull = JStr "tool_result" ->
  to_key (obj_get o "id" JNull) = Some k -> dict_get (tool_events (cl c)) k = None ->
  run_sched loads c [(i, LEvent d)]
    = mkConfig (set_tool_results (cl c) (dict_set (tool_results (cl c)) k (JObj o))) (threads c)
  /\ dict_get (tool_results (cl (run_sched loads c [(i, LEvent d)]))) k = Some (JObj o)
  /\ (forall k', k' <> k ->
        dict_get (tool_results (cl (run_sched loads c [(i, LEvent d)]))) k'
        = dict_get (tool_results (cl c)) k').
Proof.
  intros loads c i d o k Hpc Hr Hne Hd Hty Hk Hev.
  assert (Hrun : run_sched loads c [(i, LEvent d)]
    = mkConfig (set_tool_results (cl c) (dict_set (tool_results (cl c)) k (JObj o))) (threads c)).
  { simpl; unfold thread_step; rewrite Hpc; simpl; rewrite Hr; simpl.
    destruct (String.eqb_spec d "") as [E | _]; [contradiction |].
    rewrite Hd; unfold handle_data; rewrite Hty; simpl; rewrite Hk.
    unfold dict_mem; simpl; rewrite Hev.
    rewrite (list_set_same _ _ _ Hpc); reflexivity. }
  rewrite Hrun; simpl; split; [reflexivity | split].
  - apply dict_get_set_same.
  - intros k' Hk'; apply dict_get_set_other, Hk'.
Qed.

Lemma late_result_stored_witness :
  dict_get (tool_results (cl (run_sched mini_loads c_conn [(0%nat, LEvent (result_text "msg-late"))])))
    (KStr "msg-late") = Some (result_obj "msg-late").
Proof.
  assert (H1 : nth_error (threads c_conn) 0 = Some LLoop) by (vm_compute; reflexivity).
  assert (H2 : running (cl c_conn) = true) by (vm_compute; reflexivity).
  assert (H3 : result_text "msg-late" <> "") by discriminate.
  assert (H5 : obj_get [("type", JStr "tool_result"); ("id", JStr "msg-late");
        ("content", JObj [("content", JArr [JObj [("text", JStr "hello")]])])] "type" JNull
        = JStr "tool_result") by reflexivity.
  assert (H6 : to_key (obj_get [("type", JStr "tool_result"); ("id", JStr "msg-late");
        ("content", JObj [("content", JArr [JObj [("text", JStr "hello")]])])] "id" JNull)
        = Some (KStr "msg-late")) by reflexivity.
  assert (H7 : dict_get (tool_events (cl c_conn)) (KStr "msg-late") = None)
    by (vm_compute; reflexivity).
  exact (proj1 (proj2 (late_result_stored mini_loads c_conn 0 (result_text "msg-late") _ _
                         H1 H2 H3 result_text_late H5 H6 H7))).
Defined.

(** C1 counterexample: on the connected client, a [tool_result] for the
    unregistered identifier ["msg-late"] leaves an entry for it in
    [tool_results]. *)
Lemma late_result_not_discarded :
  dict_get (tool_events (cl c_conn)) (KStr "msg-late") = None
  /\ dict_get (tool_results (cl c_conn)) (KStr "msg-late") = None
  /\ dict_get (tool_results (cl (run_sched mini_loads c_conn
                                   [(0%nat, LEvent (result_text "msg-late"))])))
       (KStr "msg-late") <> None.
Proof. vm_compute. split; [reflexivity | split; [reflexivity | discriminate]]. Qed.

(** C5: while no session identity is set ([client_id] is [None] or empty),
    [invoke_tool] returns the "Not connected" error at once: besides
    registering its wait handle it issues no request, runs no wait (the
    listener schedules and the POST reply play no part) and changes
    nothing else. *)
Theorem invoke_not_connected : forall loads c mid tool params timeout r w1 w2,
  py_truthy (client_id (cl c)) = false ->
  invoke_tool loads c mid tool params timeout r w1 w2
  = (mkConfig (log (set_tool_events (cl c) (dict_set (tool_events (cl c)) (KStr mid) false))
                   (ARegister (KStr mid)))
              (threads c),
     Ok (error_dict "Not connected. Call connect() first")).
Proof.
  intros loads c mid tool params timeout r w1 w2 H.
  unfold invoke_tool, send_tool_invocation; simpl; rewrite H; reflexivity.
Qed.

Lemma invoke_not_connected_witness :
  py_truthy (client_id (cl c0)) = false
  /\ invoke_tool mini_loads c0 "msg-1" "readDirectory" dir_params 5 (HttpOk ack_text) [] []
     = (mkConfig (log (set_tool_events (cl c0) (dict_set (tool_events (cl c0)) (KStr "msg-1") false))
                      (ARegister (KStr "msg-1")))
                 (threads c0),
        Ok (error_dict "Not connected. Call connect() first")).
Proof.
  assert (H : py_truthy (client_id (cl c0)) = false) by reflexivity.
  split; [exact H | apply (invoke_not_connected mini_loads c0 _ _ _ _ _ _ _ H)].
Defined.

(** C7: [connect] on a connected client returns the stored identity and
    leaves the whole configuration (client object and listener threads)
    as it is: no new thread is started. *)
Theorem connect_when_connected : forall loads c w,
  connected (cl c) = true -> connect loads c w = (c, Ok (client_id (cl c))).
Proof. intros loads c w H; unfold connect; rewrite H; reflexivity. Qed.

Lemma connect_when_connected_witness :
  connected (cl c_conn) = true
  /\ connect mini_loads c_conn [(0%nat, LEvent connected_text)] = (c_conn, Ok (JStr "abc123")).
Proof.
  assert (H : connected (cl c_conn) = true) by (vm_compute; reflexivity).
  assert (Hid : client_id (cl c_conn) = JStr "abc123") by (vm_compute; reflexivity).
  split; [exact H |].
  rewrite <- Hid; apply (connect_when_connected mini_loads c_conn _ H).
Defined.

Definition is_register (a : action) : bool :=
  match a with ARegister _ => true | ANet _ => false end.

(** [s'] is [s] with only non-registration actions added to its trace. *)
Definition extends (s s' : client) : Prop :=
  exists t, trace s' = (trace s ++ t)%list /\ forall a, In a t -> is_register a = false.

Lemma extends_same : forall s s', trace s' = trace s -> extends s s'.
Proof. intros s s' H; exists []; rewrite app_nil_r; split; [exact H | intros a []]. Qed.

Lemma extends_trans : forall s1 s2 s3, extends s1 s2 -> extends s2 s3 -> extends s1 s3.
Proof.
  intros s1 s2 s3 [t1 [E1 H1]] [t2 [E2 H2]]; exists (t1 ++ t2)%list; split.
  - rewrite E2, E1, app_assoc; reflexivity.
  - intros a Ha; apply in_app_or in Ha; destruct Ha; auto.
Qed.

Lemma extends_net : forall s r, extends s (log s (ANet r)).
Proof.
  intros s r; exists [ANet r]; split; [reflexivity |].
  intros a [<- | []]; reflexivity.
Qed.

Lemma handle_data_trace : forall s v s', handle_data s v = Ok s' -> trace s' = trace s.
Proof.
  intros s [| | | | | o] s' H; simpl in H; try discriminate.
  destruct (is_str (obj_get o "type" JNull) "connected").
  - inversion H; reflexivity.
  - destruct (is_str (obj_get o "type" JNull) "tool_result").
    + destruct (to_key (obj_get o "id" JNull)); [| discriminate].
      destruct (dict_mem _ _); inversion H; reflexivity.
    + inversion H; reflexivity.
Qed.

Lemma thread_step_extends : forall loads c i inp,
  extends (cl c) (cl (thread_step loads c i inp)).
Proof.
  intros loads c i inp; unfold thread_step.
  destruct (nth_error (threads c) i) as [pc |]; [| apply extends_same; reflexivity].
  destruct pc, inp; simpl; try (apply extends_same; reflexivity).
  - apply extends_net.
  - apply (extends_trans _ _ _ (extends_net (cl c) (GetSse (server_url (cl c) ++ "/sse")))).
    apply extends_same; reflexivity.
  - destruct (negb (running (cl c))); [apply extends_same; reflexivity |].
    destruct (String.eqb data ""); [apply extends_same; reflexivity |].
    destruct (loads data) as [v |]; [| apply extends_same; reflexivity].
    destruct (handle_data (cl c) v) as [s' |] eqn:E; simpl.
    + apply extends_same; apply (handle_data_trace _ _ _ E).
    + apply extends_same; reflexivity.
Qed.

Lemma run_sched_extends : forall loads w c, extends (cl c) (cl (run_sched loads c w)).
Proof.
  intros loads w; induction w as [| [i inp] w IH]; intro c; simpl.
  - apply extends_same; reflexivity.
  - eapply extends_trans; [apply thread_step_extends | apply IH].
Qed.

Lemma send_extends : forall loads s mid tool params r,
  extends s (fst (send_tool_invocation loads s mid tool params r)).
Proof.
  intros loads s mid tool params r; unfold send_tool_invocation.
  destruct (negb (py_truthy (client_id s))); [apply extends_same; reflexivity |].
  destruct r as [msg | body]; simpl; [apply extends_net |].
  destruct (loads body); apply extends_net.
Qed.

(** C6: every [invoke_tool] call first registers the wait handle of its
    identifier, exactly once: the trace of the call starts with that
    registration, and everything after it (the POST carrying the
    identifier, listener activity) contains no further registration. *)
Theorem register_before_dispatch : forall loads c mid tool params timeout r w1 w2,
  exists rest,
    trace (cl (fst (invoke_tool loads c mid tool params timeout r w1 w2)))
    = (trace (cl c) ++ ARegister (KStr mid) :: rest)%list
  /\ forall a, In a rest -> is_register a = false.
Proof.
  intros loads c mid tool params timeout r w1 w2.
  set (s1 := log (set_tool_events (cl c) (dict_set (tool_events (cl c)) (KStr mid) false))
                 (ARegister (KStr mid))).
  assert (Hs1 : trace s1 = (trace (cl c) ++ [ARegister (KStr mid)])%list) by reflexivity.
  enough (Hx : extends s1 (cl (fst (invoke_tool loads c mid tool params timeout r w1 w2)))).
  { destruct Hx as [t [E H]]; exists t; split; [| exact H].
    rewrite E, Hs1, <- app_assoc; reflexivity. }
  unfold invoke_tool; fold s1.
  pose proof (send_extends loads s1 mid tool params r) as Hsend.
  destruct (send_tool_invocation loads s1 mid tool params r) as [s2 res]; simpl in Hsend.
  pose proof (run_sched_extends loads w1 (mkConfig s2 (threads c))) as H1; simpl in H1.
  destruct (py_in "error" res) as [[|] |]; simpl; try exact Hsend.
  destruct (dict_get _ _) as [flag |]; simpl.
  2: { eapply extends_trans; [exact Hsend | exact H1]. }
  pose proof (run_sched_extends loads w2 (run_sched loads (mkConfig s2 (threads c)) w1)) as H2.
  assert (H12 : extends s1 (cl (run_sched loads (run_sched loads (mkConfig s2 (threads c)) w1) w2)))
    by (eapply extends_trans; [exact Hsend | eapply extends_trans; [exact H1 | exact H2]]).
  destruct (negb flag).
  - destruct (dict_del _ _); simpl; [| exact H12].
    eapply extends_trans; [exact H12 | apply extends_same; reflexivity].
  - destruct (dict_del _ _); simpl; [| exact H12].
    eapply extends_trans; [exact H12 |].
    destruct (dict_del _ _); apply extends_same; reflexivity.
Qed.

Lemma disconnect_fixed : forall loads c,
  running (cl c) = false -> connected (cl c) = false -> client_id (cl c) = JNull ->
  tools_cache (cl c) = JNull -> disconnect loads c [] = c.
Proof.
  intros loads [[u cid th r con tc tr te ce t] ths]; simpl; intros -> -> -> ->.
  unfold disconnect; simpl; destruct th; reflexivity.
Qed.

(** C8: [disconnect] resets [client_id], [connected] and [tools_cache] to
    their initial [None]/[False]/[None], whatever the listener threads do
    during the [join]; a second call leaves these fields and [running]
    as they are, and when no listener activity happens meanwhile it
    leaves the whole configuration identical. *)
Theorem disconnect_clears_idempotent : forall loads c w,
  let c1 := disconnect loads c w in
  client_id (cl c1) = JNull /\ connected (cl c1) = false /\ tools_cache (cl c1) = JNull
  /\ running (cl c1) = false
  /\ (forall w', let c2 := disconnect loads c1 w' in
        client_id (cl c2) = JNull /\ connected (cl c2) = false
        /\ tools_cache (cl c2) = JNull /\ running (cl c2) = false)
  /\ disconnect loads c1 [] = c1.
Proof.
  intros loads c w c1.
  assert (Hr : forall c' w', running (cl (disconnect loads c' w')) = false).
  { intros c' w'; unfold disconnect; simpl.
    destruct (sse_thread (cl c')); [apply run_sched_running_false |]; reflexivity. }
  assert (Hc1 : running (cl c1) = false) by apply Hr.
  split; [reflexivity | split; [reflexivity | split; [reflexivity | split; [exact Hc1 |]]]].
  split.
  - intro w'; split; [reflexivity | split; [reflexivity | split; [reflexivity | apply Hr]]].
  - apply disconnect_fixed; [exact Hc1 | reflexivity | reflexivity | reflexivity].
Qed.

(** C10 (as the code does it): [get_tools] never raises.  A truthy cache
    is returned without a request.  Otherwise GET /tools is issued: on a
    transport error (or an undecodable body, a non-object body, or a
    [tools] value without a length) it returns [[]] and the cache keeps
    its falsy value; on success the fetched [tools] value is stored in
    the cache and returned, also when it is the empty list. *)
Theorem get_tools_cache_behaviour : forall loads c r,
  (exists c' v, get_tools loads c r = (c', Ok v))
  /\ (py_truthy (tools_cache (cl c)) = true -> get_tools loads c r = (c, Ok (tools_cache (cl c))))
  /\ (py_truthy (tools_cache (cl c)) = false -> forall msg, r = HttpFail msg ->
        get_tools loads c r
        = (mkConfig (log (cl c) (ANet (GetTools (server_url (cl c) ++ "/tools")))) (threads c),
           Ok (JArr [])))
  /\ (py_truthy (tools_cache (cl c)) = false -> forall body, r = HttpOk body ->
        (forall o, loads body = Some (JObj o) -> has_len (obj_get o "tools" (JArr [])) = false) ->
        get_tools loads c r
        = (mkConfig (log (cl c) (ANet (GetTools (server_url (cl c) ++ "/tools")))) (threads c),
           Ok (JArr [])))
  /\ (py_truthy (tools_cache (cl c)) = false -> forall body o, r = HttpOk body ->
        loads body = Some (JObj o) -> has_len (obj_get o "tools" (JArr [])) = true ->
        get_tools loads c r
        = (mkConfig (set_tools_cache
                       (log (cl c) (ANet (GetTools (server_url (cl c) ++ "/tools"))))
                       (obj_get o "tools" (JArr [])))
                    (threads c),
           Ok (obj_get o "tools" (JArr [])))).
Proof.
  intros loads c r; unfold get_tools.
  destruct (py_truthy (tools_cache (cl c))) eqn:Ht.
  - split; [eauto |]; split; [reflexivity |]; split; [discriminate | split; discriminate].
  - split; [| split; [discriminate | split; [| split]]].
    + destruct r as [msg | body]; [eauto |].
      destruct (loads body) as [[| | | | | o] |]; eauto.
      destruct (has_len _); eauto.
    + intros _ msg ->; reflexivity.
    + intros _ body -> Hno.
      destruct (loads body) as [[| | | | | o] |] eqn:Hb; try reflexivity.
      rewrite (Hno o eq_refl); reflexivity.
    + intros _ body o -> Hb Hl; rewrite Hb, Hl; reflexivity.
Qed.

Lemma get_tools_cache_behaviour_witness :
  py_truthy (tools_cache (cl c0)) = false
  /\ get_tools mini_loads c0 (HttpFail "Connection refused")
     = (mkConfig (log (cl c0) (ANet (GetTools (server_url (cl c0) ++ "/tools")))) (threads c0),
        Ok (JArr []))
  /\ get_tools mini_loads c0 (HttpOk ("{" ++ q "tools" ++ ": []}"))
     = (mkConfig (set_tools_cache
                    (log (cl c0) (ANet (GetTools (server_url (cl c0) ++ "/tools")))) (JArr []))
                 (threads c0),
        Ok (JArr [])).
Proof.
  assert (H : py_truthy (tools_cache (cl c0)) = false) by reflexivity.
  split; [exact H | split].
  - exact (proj1 (proj2 (proj2 (get_tools_cache_behaviour mini_loads c0
             (HttpFail "Connection refused")))) H "Connection refused" eq_refl).
  - exact (proj2 (proj2 (proj2 (proj2 (get_tools_cache_behaviour mini_loads c0
             (HttpOk ("{" ++ q "tools" ++ ": []}")))))) H _ [("tools", JArr [])]
             eq_refl eq_refl eq_refl).
Defined.

Definition empty_tools_text : string := "{" ++ q "tools" ++ ": []}".

(** C10 counterexample: on a fresh client, a fetch answering an empty
    [tools] list stores that empty list in [tools_cache] (which was
    [None]). *)
Lemma empty_tool_list_cached :
  tools_cache (cl c0) = JNull
  /\ snd (get_tools mini_loads c0 (HttpOk empty_tools_text)) = Ok (JArr [])
  /\ tools_cache (cl (fst (get_tools mini_loads c0 (HttpOk empty_tools_text)))) = JArr [].
Proof. vm_compute. repeat split. Qed.

(** C2 at the failing input: the wait of ["msg-1"] expires with no
    result; before the caller's cleanup runs, the listener stores the
    result for ["msg-1"].  The call returns the timeout error, its wait
    handle is gone, but [tool_results] keeps an entry for ["msg-1"]. *)
Lemma timeout_race_leaves_result :
  let (c', r) := invoke_tool mini_loads c_conn "msg-1" "readDirectory" dir_params 5
                   (HttpOk ack_text) [] [(0%nat, LEvent (result_text "msg-1"))] in
  r = Ok (error_dict "Timeout waiting for tool result after 5 seconds")
  /\ dict_get (tool_events (cl c')) (KStr "msg-1") = None
  /\ dict_get (tool_results (cl c')) (KStr "msg-1") = Some (result_obj "msg-1").
Proof. vm_compute. repeat split. Qed.

(** C3 at the failing inputs: when the GET /sse of a fresh client fails,
    [connect] returns [None] instead of raising; after a [disconnect],
    the never-cleared [connection_event] makes a new [connect] return
    [None] at once. *)
Lemma connect_listener_failure_returns_none :
  snd (connect mini_loads c0 [(0%nat, LFail "Connection refused")]) = Ok JNull
  /\ connected (cl (fst (connect mini_loads c0 [(0%nat, LFail "Connection refused")]))) = false
  /\ snd (connect mini_loads (disconnect mini_loads c_conn []) []) = Ok JNull.
Proof. vm_compute. repeat split. Qed.

(** C4 at the failing input: the POST of ["msg-2"] fails; the call
    returns the transport error at once, but the wait handle registered
    for ["msg-2"] stays in [tool_events]. *)
Lemma dispatch_failure_leaks_handle :
  let (c', r) := invoke_tool mini_loads c_conn "msg-2" "readDirectory" dir_params 30
                   (HttpFail "503 Server Error: Service Unavailable") [] [] in
  r = Ok (error_dict "503 Server Error: Service Unavailable")
  /\ threads c' = threads c_conn
  /\ dict_get (tool_events (cl c')) (KStr "msg-2") = Some false.
Proof. vm_compute. repeat split. Qed.

(** ** Further properties of the listener and of [invoke_tool] *)

Lemma dict_get_notin : forall {A} (d : dict A) k,
  dict_get d k = None <-> ~ In k (map fst d).
Proof.
  intros A d k; induction d as [| [k' v] d IH]; simpl; [tauto |].
  destruct (key_eqb k k') eqn:E.
  - apply key_eqb_eq in E; subst; split; [discriminate | intros H; exfalso; auto].
  - rewrite IH; split.
    + intros H [H' | H']; [subst; rewrite key_eqb_refl in E; discriminate | auto].
    + auto.
Qed.

Lemma dict_set_keys : forall {A} (d : dict A) k v,
  map fst (dict_set d k v) = if dict_mem d k then map fst d else (map fst d ++ [k])%list.
Proof.
  intros A d k v; unfold dict_mem; induction d as [| [k' v'] d IH]; simpl; [reflexivity |].
  destruct (key_eqb k k'); simpl; [reflexivity |].
  rewrite IH; destruct (dict_get d k); reflexivity.
Qed.

Lemma dict_set_uniq : forall {A} (d : dict A) k v, uniq d -> uniq (dict_set d k v).
Proof.
  intros A d k v H; unfold uniq; rewrite dict_set_keys; unfold dict_mem.
  destruct (dict_get d k) eqn:E; [exact H |].
  apply dict_get_notin in E.
  apply NoDup_app; [exact H | repeat constructor; intros [] | ].
  intros x Hx [<- | []]; contradiction.
Qed.

Lemma dict_get_set_present : forall {A} (d : dict A) k k' v,
  dict_get d k <> None -> dict_get (dict_set d k' v) k <> None.
Proof.
  intros A d k k' v H; destruct (key_eqb k k') eqn:E.
  - apply key_eqb_eq in E; subst; rewrite dict_get_set_same; discriminate.
  - rewrite dict_get_set_other; [exact H | intro; subst; rewrite key_eqb_refl in E; discriminate].
Qed.

Lemma dict_del_some : forall {A} (d : dict A) k,
  dict_get d k <> None -> exists d', dict_del d k = Some d'.
Proof.
  intros A d k; induction d as [| [k' v] d IH]; simpl; [tauto |].
  destruct (key_eqb k k'); [eauto |].
  intro H; destruct (IH H) as [d' ->]; eauto.
Qed.

Lemma dict_del_none : forall {A} (d : dict A) k, dict_get d k = None -> dict_del d k = None.
Proof.
  intros A d k; induction d as [| [k' v] d IH]; simpl; [reflexivity |].
  destruct (key_eqb k k'); [discriminate | intro H; rewrite (IH H); reflexivity].
Qed.

Lemma dict_del_uniq : forall {A} (d d' : dict A) k,
  uniq d -> dict_del d k = Some d' -> uniq d' /\ dict_get d' k = None.
Proof.
  intros A d; induction d as [| [k' v] d IH]; intros d' k Hu Hd; simpl in Hd; [discriminate |].
  unfold uniq in Hu; simpl in Hu; inversion Hu as [| ? ? Hn Hu']; subst.
  destruct (key_eqb k k') eqn:E.
  - inversion Hd; subst; apply key_eqb_eq in E; subst.
    split; [exact Hu' | apply dict_get_notin; exact Hn].
  - destruct (dict_del d k) as [d'' |] eqn:E'; [| discriminate].
    inversion Hd; subst.
    destruct (IH d'' k Hu' E') as [H1 H2]; split.
    + unfold uniq; simpl; constructor; [| exact H1].
      intro Hin; apply Hn; clear -Hin E'.
      revert d'' E' Hin; induction d as [| [k1 v1] d IHd]; intros d'' E' Hin; simpl in E';
        [discriminate |].
      destruct (key_eqb k k1); [inversion E'; subst; simpl; auto |].
      destruct (dict_del d k) eqn:E2; [| discriminate].
      inversion E'; subst; simpl in Hin; destruct Hin as [-> | Hin]; [left; reflexivity |].
      right; eapply IHd; eauto.
    + simpl; rewrite E; exact H2.
Qed.

Lemma handle_data_wf : forall s v s', wf s -> handle_data s v = Ok s' ->
  wf s' /\ (forall k, dict_get (tool_events s) k <> None -> dict_get (tool_events s') k <> None).
Proof.
  intros s [| | | | | o] s' [H1 H2] H; simpl in H; try discriminate.
  destruct (is_str (obj_get o "type" JNull) "connected").
  - inversion H; subst; split; [split; assumption | auto].
  - destruct (is_str (obj_get o "type" JNull) "tool_result").
    + destruct (to_key (obj_get o "id" JNull)) as [k |]; [| discriminate].
      destruct (dict_mem _ _); inversion H; subst; simpl.
      * split; [split; apply dict_set_uniq; assumption |].
        intros k' Hk; apply dict_get_set_present; exact Hk.
      * split; [split; [assumption | apply dict_set_uniq; assumption] | auto].
    + inversion H; subst; split; [split; assumption | auto].
Qed.

Lemma thread_step_wf : forall loads c i inp, wf (cl c) ->
  wf (cl (thread_step loads c i inp))
  /\ (forall k, dict_get (tool_events (cl c)) k <> None ->
       dict_get (tool_events (cl (thread_step loads c i inp))) k <> None).
Proof.
  intros loads c i inp H; unfold thread_step.
  destruct (nth_error (threads c) i) as [pc |]; [| auto].
  destruct pc, inp; simpl; auto.
  destruct (negb (running (cl c))); simpl; auto.
  destruct (String.eqb data ""); simpl; auto.
  destruct (loads data) as [v |]; simpl; auto.
  destruct (handle_data (cl c) v) as [s' |] eqn:E; simpl; auto.
  apply (handle_data_wf _ _ _ H E).
Qed.

Lemma run_sched_wf : forall loads w c, wf (cl c) ->
  wf (cl (run_sched loads c w))
  /\ (forall k, dict_get (tool_events (cl c)) k <> None ->
       dict_get (tool_events (cl (run_sched loads c w))) k <> None).
Proof.
  intros loads w; induction w as [| [i inp] w IH]; intros c H; simpl; [auto |].
  destruct (thread_step_wf loads c i inp H) as [H1 H2].
  destruct (IH _ H1) as [H3 H4]; auto.
Qed.

Lemma nth_error_list_set : forall {A} (l : list A) i x y,
  nth_error l i = Some y -> nth_error (list_set l i x) i = Some x.
Proof.
  intros A l; induction l as [| a l IH]; intros [| i] x y H; simpl in *; try discriminate;
    [reflexivity | eapply IH; eauto].
Qed.

(** One event taken by a running listener thread. *)
Lemma event_step : forall loads c i d,
  nth_error (threads c) i = Some LLoop -> running (cl c) = true -> d <> "" ->
  run_sched loads c [(i, LEvent d)]
  = match loads d with
    | None => c
    | Some v =>
        match handle_data (cl c) v with
        | Ok s' => mkConfig s' (threads c)
        | Raise _ => mkConfig (listener_error (cl c)) (list_set (threads c) i LEnd)
        end
    end.
Proof.
  intros loads c i d Hpc Hr Hne; simpl; unfold thread_step; rewrite Hpc; simpl; rewrite Hr; simpl.
  destruct (String.eqb_spec d "") as [E | _]; [contradiction |].
  destruct (loads d) as [v |]; [| rewrite (list_set_same _ _ _ Hpc); apply config_eta].
  destruct (handle_data (cl c) v); [rewrite (list_set_same _ _ _ Hpc) |]; reflexivity.
Qed.

(** A [connected] event taken by a running listener sets [client_id] to
    the event's [clientId] (replacing an identity already set, and
    [None] when the field is missing), sets [connected] and
    [connection_event], and changes nothing else. *)
Theorem listener_connected_event : forall loads c i d o,
  nth_error (threads c) i = Some LLoop -> running (cl c) = true -> d <> "" ->
  loads d = Some (JObj o) -> obj_get o "type" JNull = JStr "connected" ->
  run_sched loads c [(i, LEvent d)]
  = mkConfig (set_connection_event
                (set_connected (set_client_id (cl c) (obj_get o "clientId" JNull)) true) true)
             (threads c).
Proof.
  intros loads c i d o Hpc Hr Hne Hd Hty; rewrite (event_step loads c i d Hpc Hr Hne), Hd.
  unfold handle_data; rewrite Hty; reflexivity.
Qed.

Lemma listener_connected_event_witness :
  client_id (cl c_conn) = JStr "abc123"
  /\ client_id (cl (run_sched mini_loads c_conn [(0%nat, LEvent connected_text2)])) = JStr "zzz999".
Proof.
  split; [vm_compute; reflexivity |].
  assert (H1 : nth_error (threads c_conn) 0 = Some LLoop) by (vm_compute; reflexivity).
  assert (H2 : running (cl c_conn) = true) by (vm_compute; reflexivity).
  assert (H3 : connected_text2 <> "") by discriminate.
  assert (H4 : mini_loads connected_text2
               = Some (JObj [("type", JStr "connected"); ("clientId", JStr "zzz999")]))
    by reflexivity.
  rewrite (listener_connected_event mini_loads c_conn 0 connected_text2 _ H1 H2 H3 H4 eq_refl).
  reflexivity.
Defined.

(** A [tool_result] event whose identifier has a wait handle stores the
    payload in [tool_results] and sets that handle; nothing else changes. *)
Theorem listener_result_signals : forall loads c i d o k b,
  nth_error (threads c) i = Some LLoop -> running (cl c) = true -> d <> "" ->
  loads d = Some (JObj o) -> obj_get o "type" JNull = JStr "tool_result" ->
  to_key (obj_get o "id" JNull) = Some k -> dict_get (tool_events (cl c)) k = Some b ->
  run_sched loads c [(i, LEvent d)]
  = mkConfig (set_tool_events (set_tool_results (cl c) (dict_set (tool_results (cl c)) k (JObj o)))
                              (dict_set (tool_events (cl c)) k true))
             (threads c)
  /\ dict_get (tool_events (cl (run_sched loads c [(i, LEvent d)]))) k = Some true
  /\ dict_get (tool_results (cl (run_sched loads c [(i, LEvent d)]))) k = Some (JObj o).
Proof.
  intros loads c i d o k b Hpc Hr Hne Hd Hty Hk Hev.
  rewrite (event_step loads c i d Hpc Hr Hne), Hd.
  unfold handle_data; rewrite Hty; simpl; rewrite Hk; unfold dict_mem; simpl; rewrite Hev.
  simpl; split; [reflexivity | split; apply dict_get_set_same].
Qed.

Lemma listener_result_signals_witness :
  dict_get (tool_events (cl c_reg)) (KStr "msg-1") = Some false
  /\ dict_get (tool_events (cl (run_sched mini_loads c_reg [(0%nat, LEvent (result_text "msg-1"))])))
       (KStr "msg-1") = Some true.
Proof.
  assert (H1 : nth_error (threads c_reg) 0 = Some LLoop) by (vm_compute; reflexivity).
  assert (H2 : running (cl c_reg) = true) by (vm_compute; reflexivity).
  assert (H3 : result_text "msg-1" <> "") by discriminate.
  assert (H4 : mini_loads (result_text "msg-1") = Some (result_obj "msg-1")) by reflexivity.
  assert (H7 : dict_get (tool_events (cl c_reg)) (KStr "msg-1") = Some false)
    by (vm_compute; reflexivity).
  split; [exact H7 |].
  exact (proj1 (proj2 (listener_result_signals mini_loads c_reg 0 (result_text "msg-1") _ _ _
                         H1 H2 H3 H4 eq_refl eq_refl H7))).
Defined.

(** A transport error ends the listener thread: [running] becomes false
    and [connection_event] is set, while [connected], [client_id] and the
    correlation dicts keep their values (a dropped stream leaves the
    client marked as connected).  A normal end of the stream ends the
    thread without touching the client at all. *)
Theorem listener_stream_end : forall loads c i pc m,
  nth_error (threads c) i = Some pc -> pc <> LEnd ->
  (running (cl (run_sched loads c [(i, LFail m)])) = false
   /\ connection_event (cl (run_sched loads c [(i, LFail m)])) = true
   /\ connected (cl (run_sched loads c [(i, LFail m)])) = connected (cl c)
   /\ client_id (cl (run_sched loads c [(i, LFail m)])) = client_id (cl c)
   /\ tool_events (cl (run_sched loads c [(i, LFail m)])) = tool_events (cl c)
   /\ tool_results (cl (run_sched loads c [(i, LFail m)])) = tool_results (cl c)
   /\ nth_error (threads (run_sched loads c [(i, LFail m)])) i = Some LEnd)
  /\ (pc = LLoop ->
      cl (run_sched loads c [(i, LStreamEnd)]) = cl c
      /\ nth_error (threads (run_sched loads c [(i, LStreamEnd)])) i = Some LEnd).
Proof.
  intros loads c i pc m Hpc Hne; simpl; unfold thread_step; rewrite Hpc.
  destruct pc; [| | contradiction]; simpl.
  - split; [| discriminate].
    repeat split; eapply nth_error_list_set; eauto.
  - split; [repeat split; eapply nth_error_list_set; eauto |].
    intros _; split; [reflexivity | eapply nth_error_list_set; eauto].
Qed.

Lemma listener_stream_end_witness :
  connected (cl (run_sched mini_loads c_conn [(0%nat, LFail "Connection reset")])) = true
  /\ running (cl (run_sched mini_loads c_conn [(0%nat, LFail "Connection reset")])) = false.
Proof.
  assert (H1 : nth_error (threads c_conn) 0 = Some LLoop) by (vm_compute; reflexivity).
  assert (H2 : LLoop <> LEnd) by discriminate.
  assert (H3 : connected (cl c_conn) = true) by (vm_compute; reflexivity).
  destruct (listener_stream_end mini_loads c_conn 0 LLoop "Connection reset" H1 H2)
    as [[Hr [_ [Hc _]]] _].
  split; [rewrite Hc; exact H3 | exact Hr].
Defined.

(** Valid JSON that is not an object ([data.get] raises
    [AttributeError]), or a [tool_result] whose [id] is a list or an
    object (unhashable dict key, [TypeError]), ends the listener through
    its [except] handler: [running] false, [connection_event] set, the
    rest of the client unchanged. *)
Theorem listener_bad_event_stops : forall loads c i d v,
  nth_error (threads c) i = Some LLoop -> running (cl c) = true -> d <> "" ->
  loads d = Some v ->
  ((forall o, v <> JObj o)
   \/ exists o, v = JObj o /\ obj_get o "type" JNull = JStr "tool_result"
                /\ to_key (obj_get o "id" JNull) = None) ->
  run_sched loads c [(i, LEvent d)]
  = mkConfig (listener_error (cl c)) (list_set (threads c) i LEnd).
Proof.
  intros loads c i d v Hpc Hr Hne Hd Hv; rewrite (event_step loads c i d Hpc Hr Hne), Hd.
  destruct Hv as [Hv | [o [-> [Hty Hk]]]].
  - destruct v as [| | | | | o]; try reflexivity.
    exfalso; exact (Hv o eq_refl).
  - unfold handle_data; rewrite Hty; simpl; rewrite Hk; reflexivity.
Qed.

Lemma listener_bad_event_stops_witness :
  running (cl (run_sched mini_loads c_conn [(0%nat, LEvent list_text)])) = false
  /\ threads (run_sched mini_loads c_conn [(0%nat, LEvent list_text)]) = [LEnd].
Proof.
  assert (H1 : nth_error (threads c_conn) 0 = Some LLoop) by (vm_compute; reflexivity).
  assert (H2 : running (cl c_conn) = true) by (vm_compute; reflexivity).
  assert (H3 : list_text <> "") by discriminate.
  assert (H4 : mini_loads list_text = Some (JArr [JNum 1; JNum 2])) by reflexivity.
  assert (H5 : forall o, JArr [JNum 1; JNum 2] <> JObj o) by discriminate.
  rewrite (listener_bad_event_stops mini_loads c_conn 0 list_text _ H1 H2 H3 H4 (or_introl H5)).
  split; reflexivity.
Defined.

(** Once [running] is false, the next event ends the listener thread
    before it is looked at: the client is unchanged. *)
Theorem listener_stops_when_not_running : forall loads c i d,
  nth_error (threads c) i = Some LLoop -> running (cl c) = false ->
  run_sched loads c [(i, LEvent d)] = mkConfig (cl c) (list_set (threads c) i LEnd).
Proof.
  intros loads c i d Hpc Hr; simpl; unfold thread_step; rewrite Hpc; simpl; rewrite Hr.
  reflexivity.
Qed.

Lemma listener_stops_when_not_running_witness :
  let c := disconnect mini_loads c_conn [] in
  threads (run_sched mini_loads c [(0%nat, LEvent connected_text)]) = [LEnd]
  /\ connected (cl (run_sched mini_loads c [(0%nat, LEvent connected_text)])) = false.
Proof.
  intro c.
  assert (H1 : nth_error (threads c) 0 = Some LLoop) by (vm_compute; reflexivity).
  assert (H2 : running (cl c) = false) by (vm_compute; reflexivity).
  rewrite (listener_stops_when_not_running mini_loads c 0 connected_text H1 H2).
  split; vm_compute; reflexivity.
Defined.

Lemma handle_data_no_event : forall s v s', handle_data s v = Ok s' ->
  connection_event s' = false ->
  connection_event s = false /\ connected s' = connected s /\ running s' = running s.
Proof.
  intros s [| | | | | o] s' H; simpl in H; try discriminate.
  destruct (is_str (obj_get o "type" JNull) "connected").
  - inversion H; subst; discriminate.
  - destruct (is_str (obj_get o "type" JNull) "tool_result").
    + destruct (to_key (obj_get o "id" JNull)); [| discriminate].
      destruct (dict_mem _ _); inversion H; subst; auto.
    + inversion H; subst; auto.
Qed.

Lemma run_sched_no_event : forall loads w c,
  connection_event (cl (run_sched loads c w)) = false ->
  connection_event (cl c) = false
  /\ connected (cl (run_sched loads c w)) = connected (cl c)
  /\ running (cl (run_sched loads c w)) = running (cl c).
Proof.
  intros loads w; induction w as [| [i inp] w IH]; intros c H; simpl in *; [auto |].
  destruct (IH _ H) as [H1 [H2 H3]]; rewrite H2, H3; clear IH H H2 H3.
  revert H1; unfold thread_step.
  destruct (nth_error (threads c) i) as [pc |]; [| auto].
  destruct pc, inp; simpl; try (intro; discriminate); auto.
  destruct (negb (running (cl c))); simpl; auto.
  destruct (String.eqb data ""); simpl; auto.
  destruct (loads data) as [v |]; simpl; auto.
  destruct (handle_data (cl c) v) as [s' |] eqn:E; simpl; [| discriminate].
  apply (handle_data_no_event _ _ _ E).
Qed.

Lemma connect_raise_state : forall loads c w c' e,
  connect loads c w = (c', Raise e) ->
  e = TimeoutError "Failed to establish SSE connection within timeout period"
  /\ connected (cl c') = false /\ connection_event (cl c') = false /\ running (cl c') = true.
Proof.
  intros loads c w c' e H; unfold connect in H.
  destruct (connected (cl c)) eqn:Hc; [discriminate |].
  destruct (connection_event _) eqn:Hev in H; [discriminate |].
  inversion H; subst; clear H.
  destruct (run_sched_no_event _ _ _ Hev) as [_ [H2 H3]]; simpl in H2, H3.
  split; [reflexivity | split; [rewrite H2; exact Hc | split; [exact Hev | exact H3]]].
Qed.

(** When [connect] raises its [TimeoutError], no listener has handled a
    [connected] event or failed meanwhile: [connected] is false,
    [connection_event] unset, and [running] is still true, so the thread
    it started is not told to stop when the caller gives up. *)
Theorem connect_timeout_state : forall loads c w c' e,
  connect loads c w = (c', Raise e) ->
  e = TimeoutError "Failed to establish SSE connection within timeout period"
  /\ connected (cl c') = false /\ connection_event (cl c') = false /\ running (cl c') = true.
Proof. intros loads c w c' e H; exact (connect_raise_state loads c w c' e H). Qed.

Lemma connect_timeout_state_witness :
  snd (connect mini_loads c0 [(0%nat, LOpenOk)])
    = Raise (TimeoutError "Failed to establish SSE connection within timeout period")
  /\ running (cl (fst (connect mini_loads c0 [(0%nat, LOpenOk)]))) = true.
Proof.
  assert (H : connect mini_loads c0 [(0%nat, LOpenOk)]
              = (fst (connect mini_loads c0 [(0%nat, LOpenOk)]),
                 Raise (TimeoutError "Failed to establish SSE connection within timeout period")))
    by reflexivity.
  split; [reflexivity |].
  exact (proj2 (proj2 (proj2 (connect_timeout_state mini_loads c0 _ _ _ H)))).
Defined.

Lemma send_maps : forall loads s mid tool params r,
  tool_events (fst (send_tool_invocation loads s mid tool params r)) = tool_events s
  /\ tool_results (fst (send_tool_invocation loads s mid tool params r)) = tool_results s.
Proof.
  intros loads s mid tool params r; unfold send_tool_invocation.
  destruct (negb (py_truthy (client_id s))); [auto |].
  destruct r as [msg | body]; simpl; [auto |].
  destruct (loads body); auto.
Qed.

Lemma dict_del_none_get : forall {A} (d : dict A) k, dict_del d k = None -> dict_get d k = None.
Proof.
  intros A d k H; destruct (dict_get d k) eqn:E; [| reflexivity].
  assert (Hn : dict_get d k <> None) by (rewrite E; discriminate).
  destruct (dict_del_some d k Hn) as [d' Hd]; congruence.
Qed.

(** Once the POST has been answered without an error, [invoke_tool]
    always finds its wait handle and ends one of two ways, decided by
    whether the handle was set when the wait ended: unset, it deletes
    the handle and returns the timeout error; set, it deletes the handle
    and the stored result and returns the extraction of that result (or
    of [None] if none is stored). *)
Theorem invoke_after_dispatch : forall loads c mid tool params timeout r w1 w2 s2 res,
  wf (cl c) ->
  send_tool_invocation loads (registered (cl c) mid) mid tool params r = (s2, res) ->
  py_in "error" res = Ok false ->
  let c3 := run_sched loads (mkConfig s2 (threads c)) w1 in
  let c4 := run_sched loads c3 w2 in
  let R := invoke_tool loads c mid tool params timeout r w1 w2 in
  dict_get (tool_events (cl c3)) (KStr mid) <> None
  /\ (dict_get (tool_events (cl c3)) (KStr mid) = Some false ->
      snd R = Ok (error_dict ("Timeout waiting for tool result after "
                              ++ nat_to_string timeout ++ " seconds"))
      /\ dict_get (tool_events (cl (fst R))) (KStr mid) = None
      /\ (exists ev, dict_del (tool_events (cl c4)) (KStr mid) = Some ev
           /\ fst R = mkConfig (set_tool_events (cl c4) ev) (threads c4)))
  /\ (dict_get (tool_events (cl c3)) (KStr mid) = Some true ->
      snd R = extract_result loads
                (match dict_get (tool_results (cl c4)) (KStr mid) with
                 | Some v => v | None => JNull end)
      /\ dict_get (tool_events (cl (fst R))) (KStr mid) = None
      /\ dict_get (tool_results (cl (fst R))) (KStr mid) = None).
Proof.
  intros loads c mid tool params timeout r w1 w2 s2 res [Hu1 Hu2] Hsend Hin; cbv zeta.
  pose proof (send_maps loads (registered (cl c) mid) mid tool params r) as [Hm1 Hm2].
  rewrite Hsend in Hm1, Hm2; simpl in Hm1, Hm2.
  assert (Hwf2 : wf s2).
  { split; [rewrite Hm1; apply dict_set_uniq, Hu1 | rewrite Hm2; exact Hu2]. }
  assert (Hp2 : dict_get (tool_events s2) (KStr mid) <> None)
    by (rewrite Hm1, dict_get_set_same; discriminate).
  destruct (run_sched_wf loads w1 (mkConfig s2 (threads c)) Hwf2) as [Hwf3 Hp3].
  specialize (Hp3 _ Hp2).
  destruct (run_sched_wf loads w2 (run_sched loads (mkConfig s2 (threads c)) w1) Hwf3)
    as [[Hu4 Hu4'] Hp4].
  specialize (Hp4 _ Hp3).
  unfold invoke_tool; unfold registered in Hsend; rewrite Hsend, Hin.
  split; [exact Hp3 |].
  destruct (dict_get (tool_events (cl (run_sched loads (mkConfig s2 (threads c)) w1))) (KStr mid))
    as [[|] |] eqn:Ef; [| | contradiction].
  - split; [discriminate |]; intros _; simpl.
    destruct (dict_del_some _ _ Hp4) as [ev Hev]; rewrite Hev; simpl.
    destruct (dict_del_uniq _ _ _ Hu4 Hev) as [_ Hg].
    destruct (dict_del (tool_results _) _) as [rs |] eqn:Er; simpl;
      (split; [reflexivity | split; [exact Hg |]]).
    + exact (proj2 (dict_del_uniq _ _ _ Hu4' Er)).
    + exact (dict_del_none_get _ _ Er).
  - split; [| discriminate]; intros _; simpl.
    destruct (dict_del_some _ _ Hp4) as [ev Hev]; rewrite Hev; simpl.
    split; [reflexivity | split; [exact (proj2 (dict_del_uniq _ _ _ Hu4 Hev)) |]].
    exists ev; split; reflexivity.
Qed.

Lemma invoke_after_dispatch_witness :
  snd (invoke_tool mini_loads c_conn "msg-1" "readDirectory" dir_params 5 (HttpOk ack_text)
         [(0%nat, LEvent (result_text "msg-1"))] [])
  = extract_result mini_loads (result_obj "msg-1").
Proof.
  assert (Hwf : wf (cl c_conn)) by (vm_compute; split; constructor).
  assert (Hs : send_tool_invocation mini_loads (registered (cl c_conn) "msg-1") "msg-1"
                 "readDirectory" dir_params (HttpOk ack_text)
               = (fst (send_tool_invocation mini_loads (registered (cl c_conn) "msg-1") "msg-1"
                         "readDirectory" dir_params (HttpOk ack_text)),
                  snd (send_tool_invocation mini_loads (registered (cl c_conn) "msg-1") "msg-1"
                         "readDirectory" dir_params (HttpOk ack_text))))
    by apply surjective_pairing.
  assert (Hin : py_in "error" (snd (send_tool_invocation mini_loads (registered (cl c_conn) "msg-1")
                  "msg-1" "readDirectory" dir_params (HttpOk ack_text))) = Ok false)
    by (vm_compute; reflexivity).
  pose proof (invoke_after_dispatch mini_loads c_conn "msg-1" "readDirectory" dir_params 5
                (HttpOk ack_text) [(0%nat, LEvent (result_text "msg-1"))] [] _ _ Hwf Hs Hin) as H.
  cbv zeta in H; destruct H as [_ [_ H3]].
  assert (Ef : dict_get (tool_events (cl (run_sched mini_loads
                 (mkConfig (fst (send_tool_invocation mini_loads (registered (cl c_conn) "msg-1")
                    "msg-1" "readDirectory" dir_params (HttpOk ack_text))) (threads c_conn))
                 [(0%nat, LEvent (result_text "msg-1"))]))) (KStr "msg-1") = Some true)
    by (vm_compute; reflexivity).
  destruct (H3 Ef) as [E _]; rewrite E; vm_compute; reflexivity.
Defined.

(** How [invoke_tool] unwraps a stored result: [None] gives the
    "No result received" error; a payload shaped
    [{"content": {"content": [{"text": t}, ...]}}] gives [json.loads(t)],
    or [{"text": t}] when [t] is not JSON; a non-empty payload without a
    [content] key is returned as it is. *)
Theorem extract_result_cases : forall loads o,
  extract_result loads JNull = Ok (error_dict "No result received")
  /\ (forall o2 o3 rest t,
        obj_lookup o "content" = Some (JObj o2) ->
        obj_lookup o2 "content" = Some (JArr (JObj o3 :: rest)) ->
        obj_lookup o3 "text" = Some (JStr t) ->
        extract_result loads (JObj o)
        = match loads t with Some v => Ok v | None => Ok (JObj [("text", JStr t)]) end)
  /\ (obj_lookup o "content" = None -> o <> [] -> extract_result loads (JObj o) = Ok (JObj o)).
Proof.
  intros loads o; split; [reflexivity | split].
  - intros o2 o3 rest t H1 H2 H3.
    destruct o as [| p o]; [discriminate |].
    unfold extract_result; simpl py_truthy; cbv beta iota.
    unfold py_in, py_getitem, rbind; rewrite H1; simpl; rewrite H2; simpl; rewrite H3.
    reflexivity.
  - intros H Hne; destruct o as [| p o]; [contradiction |].
    unfold extract_result; simpl py_truthy; cbv beta iota.
    unfold py_in, rbind; rewrite H; reflexivity.
Qed.

Lemma extract_result_cases_witness :
  extract_result mini_loads (result_obj "msg-1") = Ok (JObj [("text", JStr "hello")]).
Proof.
  unfold result_obj.
  rewrite (proj1 (proj2 (extract_result_cases mini_loads
             [("type", JStr "tool_result"); ("id", JStr "msg-1");
              ("content", JObj [("content", JArr [JObj [("text", JStr "hello")]])])]))
             [("content", JArr [JObj [("text", JStr "hello")]])] [("text", JStr "hello")] []
             "hello" eq_refl eq_refl eq_refl).
  reflexivity.
Defined.

(** ** Callers of the client *)

Lemma orb_false_split : forall a b, a || b = false -> a = false /\ b = false.
Proof. intros [] []; simpl; auto; discriminate. Qed.

Lemma replace_no_char : forall f c o' new s,
  has_char c s = false -> replace_fuel f (String c o') new s = s.
Proof.
  induction f as [| f IH]; intros c o' new s H; [reflexivity |].
  destruct s as [| a s]; [reflexivity |].
  simpl in H; apply orb_false_split in H as [H1 H2].
  simpl; rewrite H1; simpl; rewrite IH by exact H2; reflexivity.
Qed.

Lemma unescape : forall t f, has_char bs_c t = false ->
  (String.length (ps_escape t) < f)%nat ->
  replace_fuel f (bs ++ dq) dq (ps_escape t) = t.
Proof.
  induction t as [| a t IH]; intros f H Hl; (destruct f as [| f]; [simpl in Hl; lia |]).
  - reflexivity.
  - simpl in H; apply orb_false_split in H as [H1 H2].
    simpl ps_escape in *; destruct (Ascii.eqb a dq_c) eqn:Ea.
    + apply Ascii.eqb_eq in Ea; subst a; simpl in Hl.
      simpl; rewrite IH by (exact H2 || lia); reflexivity.
    + simpl in Hl; simpl; rewrite H1; simpl; rewrite IH by (exact H2 || lia); reflexivity.
Qed.

(** Parameter parsing in orchestrator.py [parse_arguments]: a non-empty
    parameter text that [json.loads] rejects and that holds no backslash
    becomes [{"input": text}], also when it starts with a brace and a
    double quote; the unescaping fallback never changes such a text. *)
Theorem parse_plain_invalid_is_input : forall loads p,
  p <> EmptyString -> loads p = None -> has_char bs_c p = false ->
  parse_parameters loads (Some p) = input_dict p.
Proof.
  intros loads p Hne Hl Hb; unfold parse_parameters.
  destruct p as [| a p']; [congruence |]; rewrite Hl.
  unfold str_replace.
  change (bs ++ dq) with (String bs_c dq); change (bs ++ bs) with (String bs_c bs).
  rewrite (replace_no_char _ bs_c dq dq _ Hb).
  rewrite (replace_no_char _ bs_c bs bs _ Hb).
  destruct (_ || _); [| reflexivity].
  unfold bs at 1; rewrite (replace_no_char _ bs_c EmptyString EmptyString _ Hb), Hl.
  reflexivity.
Qed.

Lemma parse_plain_invalid_is_input_witness :
  mini_loads bad_params_text = None
  /\ parse_parameters mini_loads (Some bad_params_text) = input_dict bad_params_text.
Proof.
  split; [reflexivity |].
  apply parse_plain_invalid_is_input; [discriminate | reflexivity | reflexivity].
Defined.

(** Parameter parsing in orchestrator.py [parse_arguments]: a JSON text
    that starts with a brace directly followed by a double quote and has
    no backslash of its own, passed with every double quote escaped by a
    backslash (as PowerShell does), is decoded to the same value as the
    unescaped text whenever [json.loads] rejects the escaped form.  (A
    text such as [{ "a": 1}] fails the [startswith] test after
    unescaping and becomes [{"input": ...}].) *)
Theorem parse_escaped_roundtrip : forall loads t v,
  has_char bs_c t = false -> startswith t ("{" ++ dq) = true ->
  loads (ps_escape t) = None -> loads t = Some v ->
  parse_parameters loads (Some (ps_escape t)) = v.
Proof.
  intros loads t v Hb Hs Hn Hv.
  destruct t as [| a t']; [discriminate |].
  unfold parse_parameters.
  destruct (ps_escape (String a t')) as [| b e'] eqn:E.
  { simpl in E; destruct (Ascii.eqb a dq_c); discriminate. }
  rewrite Hn, <- E.
  assert (Hu : str_replace (bs ++ dq) dq (ps_escape (String a t')) = String a t')
    by (apply unescape; [exact Hb | lia]).
  assert (Hbb : str_replace (bs ++ bs) bs (String a t') = String a t')
    by exact (replace_no_char _ bs_c bs bs _ Hb).
  assert (Hbe : str_replace bs EmptyString (String a t') = String a t')
    by exact (replace_no_char _ bs_c EmptyString EmptyString _ Hb).
  rewrite Hu, Hbb, Hs, orb_true_r, Hbe, Hv; reflexivity.
Qed.

Lemma parse_escaped_roundtrip_witness :
  parse_parameters mini_loads
    (Some (ps_escape ("{" ++ q "dirPath" ++ ": " ++ q "." ++ "}"))) = dir_params.
Proof.
  apply parse_escaped_roundtrip; reflexivity.
Defined.

Lemma no_post_snoc : forall t a, no_post t ->
  (forall u p, a <> ANet (PostMessages u p)) -> no_post (t ++ [a])%list.
Proof.
  intros t a H Ha u p Hin; apply in_app_or in Hin as [Hin | [Heq | []]].
  - exact (H u p Hin).
  - exact (Ha u p Heq).
Qed.

Lemma thread_step_no_post : forall loads c i inp,
  no_post (trace (cl c)) -> no_post (trace (cl (thread_step loads c i inp))).
Proof.
  intros loads c i inp H; unfold thread_step.
  destruct (nth_error (threads c) i) as [pc |]; [| exact H].
  destruct pc, inp; simpl; try exact H;
    try (apply no_post_snoc; [exact H | intros u p; discriminate]).
  destruct (negb (running (cl c))); simpl; [exact H |].
  destruct (String.eqb data ""); simpl; [exact H |].
  destruct (loads data) as [v |]; simpl; [| exact H].
  destruct (handle_data (cl c) v) as [s' |] eqn:E; simpl; [| exact H].
  rewrite (handle_data_trace _ _ _ E); exact H.
Qed.

Lemma run_sched_no_post : forall loads w c,
  no_post (trace (cl c)) -> no_post (trace (cl (run_sched loads c w))).
Proof.
  intros loads w; induction w as [| [i inp] w IH]; intros c H; simpl; [exact H |].
  apply IH, thread_step_no_post, H.
Qed.

Lemma connect_no_post : forall loads c w,
  no_post (trace (cl c)) -> no_post (trace (cl (fst (connect loads c w)))).
Proof.
  intros loads c w H; unfold connect.
  destruct (connected (cl c)); [exact H |].
  destruct (connection_event _); apply run_sched_no_post; exact H.
Qed.

Lemma disconnect_no_post : forall loads c w,
  no_post (trace (cl c)) -> no_post (trace (cl (disconnect loads c w))).
Proof.
  intros loads c w H; unfold disconnect; simpl.
  destruct (sse_thread (cl c)); simpl; [| exact H].
  apply run_sched_no_post; exact H.
Qed.

Lemma disconnect_resets : forall loads c w,
  let c1 := disconnect loads c w in
  client_id (cl c1) = JNull /\ connected (cl c1) = false /\ running (cl c1) = false
  /\ tools_cache (cl c1) = JNull.
Proof.
  intros loads c w c1; split; [reflexivity | split; [reflexivity | split; [| reflexivity]]].
  unfold c1, disconnect; simpl.
  destruct (sse_thread (cl c)); [apply run_sched_running_false |]; reflexivity.
Qed.

Lemma handle_data_tools_cache : forall s v s', handle_data s v = Ok s' ->
  tools_cache s' = tools_cache s.
Proof.
  intros s [| | | | | o] s' H; simpl in H; try discriminate.
  destruct (is_str (obj_get o "type" JNull) "connected").
  - inversion H; reflexivity.
  - destruct (is_str (obj_get o "type" JNull) "tool_result").
    + destruct (to_key (obj_get o "id" JNull)); [| discriminate].
      destruct (dict_mem _ _); inversion H; reflexivity.
    + inversion H; reflexivity.
Qed.

Lemma run_sched_tools_cache : forall loads w c,
  tools_cache (cl (run_sched loads c w)) = tools_cache (cl c).
Proof.
  intros loads w; induction w as [| [i inp] w IH]; intro c; simpl; [reflexivity |].
  rewrite IH; unfold thread_step.
  destruct (nth_error (threads c) i) as [pc |]; [| reflexivity].
  destruct pc, inp; simpl; try reflexivity.
  destruct (negb (running (cl c))); simpl; [reflexivity |].
  destruct (String.eqb data ""); simpl; [reflexivity |].
  destruct (loads data) as [v |]; simpl; [| reflexivity].
  destruct (handle_data (cl c) v) as [s' |] eqn:E; simpl; [| reflexivity].
  exact (handle_data_tools_cache _ _ _ E).
Qed.

Lemma connect_tools_cache : forall loads c w,
  tools_cache (cl (fst (connect loads c w))) = tools_cache (cl c).
Proof.
  intros loads c w; unfold connect.
  destruct (connected (cl c)); [reflexivity |].
  destruct (connection_event _); simpl; rewrite run_sched_tools_cache; reflexivity.
Qed.

Lemma run_sched_ended : forall loads w c,
  (forall i pc, nth_error (threads c) i = Some pc -> pc = LEnd) -> run_sched loads c w = c.
Proof.
  intros loads w; induction w as [| [i inp] w IH]; intros c H; simpl; [reflexivity |].
  assert (Hs : thread_step loads c i inp = c).
  { unfold thread_step; destruct (nth_error (threads c) i) as [pc |] eqn:E; [| reflexivity].
    rewrite (H _ _ E) in E |- *.
    replace (listener_step loads (cl c) LEnd inp) with (cl c, LEnd) by (destruct inp; reflexivity).
    rewrite (list_set_same _ _ _ E); apply config_eta. }
  rewrite Hs; apply IH, H.
Qed.

Lemma single_ended : forall i pc, nth_error [LEnd] i = Some pc -> pc = LEnd.
Proof.
  intros [| [| i]] pc H; simpl in H; inversion H; reflexivity.
Qed.

(** orchestrator.py [execute_remote_tool]: when [connect] times out, the
    caller gets the error dict built from the [TimeoutError], no
    invocation is sent, and the client is returned without [disconnect]:
    its listener is still marked running. *)
Theorem execute_remote_connect_timeout : forall loads exn_str url tool params w mid r w1 w2 join c1 e,
  connect loads (init_config url) w = (c1, Raise e) ->
  execute_remote_tool loads exn_str url tool params w mid r w1 w2 join
    = (c1, remote_error tool
             (exn_str (TimeoutError "Failed to establish SSE connection within timeout period")))
  /\ running (cl c1) = true /\ connected (cl c1) = false /\ no_post (trace (cl c1)).
Proof.
  intros loads exn_str url tool params w mid r w1 w2 join c1 e H.
  destruct (connect_raise_state _ _ _ _ _ H) as [He [Hc [_ Hr]]]; subst e.
  split; [unfold execute_remote_tool; rewrite H; reflexivity |].
  split; [exact Hr | split; [exact Hc |]].
  replace c1 with (fst (connect loads (init_config url) w)) by (rewrite H; reflexivity).
  apply connect_no_post; intros u p [].
Qed.

Lemma execute_remote_connect_timeout_witness :
  snd (execute_remote_tool mini_loads (fun _ => "timed out") "http://172.16.16.54:8080/"
         "readDirectory" dir_params [(0%nat, LOpenOk)] "msg-1" (HttpOk ack_text) [] [] [])
  = remote_error "readDirectory" "timed out".
Proof.
  assert (H : connect mini_loads (init_config "http://172.16.16.54:8080/") [(0%nat, LOpenOk)]
              = (fst (connect mini_loads (init_config "http://172.16.16.54:8080/")
                        [(0%nat, LOpenOk)]),
                 Raise (TimeoutError "Failed to establish SSE connection within timeout period")))
    by (vm_compute; reflexivity).
  rewrite (proj1 (execute_remote_connect_timeout mini_loads (fun _ => "timed out") _
                    "readDirectory" dir_params _ "msg-1" (HttpOk ack_text) [] [] [] _ _ H)).
  reflexivity.
Defined.

(** orchestrator.py [execute_remote_tool]: when the SSE request fails
    before any event, [connect] returns without a session, and the call
    returns the "Not connected" dict of [_send_tool_invocation] (not an
    "Error executing remote tool" dict) whatever the tool, parameters or
    later listener inputs; no invocation is sent, the client is
    disconnected, and its wait handle for the identifier stays
    registered. *)
Theorem execute_remote_listener_fails : forall loads exn_str url tool params m rest mid r w1 w2 join,
  let res := execute_remote_tool loads exn_str url tool params ((0%nat, LFail m) :: rest)
               mid r w1 w2 join in
  snd res = error_dict "Not connected. Call connect() first"
  /\ connected (cl (fst res)) = false /\ running (cl (fst res)) = false
  /\ dict_get (tool_events (cl (fst res))) (KStr mid) = Some false
  /\ no_post (trace (cl (fst res))).
Proof.
  intros loads exn_str url tool params m rest mid r w1 w2 join res.
  unfold res, execute_remote_tool, connect; simpl.
  rewrite run_sched_ended; [simpl | exact single_ended].
  unfold invoke_tool; simpl.
  unfold disconnect; simpl.
  rewrite run_sched_ended; [simpl | exact single_ended].
  rewrite String.eqb_refl.
  split; [reflexivity | split; [reflexivity | split; [reflexivity | split; [reflexivity |]]]].
  intros u p [H | [H | []]]; discriminate.
Qed.

(** orchestrator.py [execute_remote_tool], after a successful [connect]:
    a value returned by [invoke_tool] (a tool result or one of its error
    dicts) is passed on unchanged and the client is disconnected
    ([client_id], [connected], [running] and [tools_cache] reset); an
    exception from [invoke_tool] becomes the "Error executing remote
    tool" dict and [disconnect] is skipped. *)
Theorem execute_remote_after_connect : forall loads exn_str url tool params w mid r w1 w2 join
    c1 x c2 ri,
  connect loads (init_config url) w = (c1, Ok x) ->
  invoke_tool loads c1 mid tool params 30 r w1 w2 = (c2, ri) ->
  (forall v, ri = Ok v ->
     let res := execute_remote_tool loads exn_str url tool params w mid r w1 w2 join in
     snd res = v /\ client_id (cl (fst res)) = JNull /\ connected (cl (fst res)) = false
     /\ running (cl (fst res)) = false /\ tools_cache (cl (fst res)) = JNull)
  /\ (forall e, ri = Raise e ->
        execute_remote_tool loads exn_str url tool params w mid r w1 w2 join
        = (c2, remote_error tool (exn_str e))).
Proof.
  intros loads exn_str url tool params w mid r w1 w2 join c1 x c2 ri Hc Hi.
  unfold execute_remote_tool; rewrite Hc, Hi.
  split; intros ? ->; [| reflexivity].
  exact (conj eq_refl (disconnect_resets loads c2 join)).
Qed.

Lemma execute_remote_after_connect_witness :
  let res := execute_remote_tool mini_loads (fun _ => "") "http://172.16.16.54:8080/"
               "readDirectory" dir_params w_handshake "msg-1" (HttpOk ack_text)
               [(0%nat, LEvent (result_text "msg-1"))] [] [] in
  snd res = JObj [("text", JStr "hello")] /\ connected (cl (fst res)) = false.
Proof.
  set (c1 := fst (connect mini_loads (init_config "http://172.16.16.54:8080/") w_handshake)).
  assert (Hc : connect mini_loads (init_config "http://172.16.16.54:8080/") w_handshake
               = (c1, Ok (JStr "abc123"))) by (vm_compute; reflexivity).
  set (i := invoke_tool mini_loads c1 "msg-1" "readDirectory" dir_params 30 (HttpOk ack_text)
              [(0%nat, LEvent (result_text "msg-1"))] []).
  assert (Hi : i = (fst i, Ok (JObj [("text", JStr "hello")]))) by (vm_compute; reflexivity).
  destruct (proj1 (execute_remote_after_connect mini_loads (fun _ => "") _ "readDirectory"
                     dir_params w_handshake "msg-1" (HttpOk ack_text)
                     [(0%nat, LEvent (result_text "msg-1"))] [] [] _ _ _ _ Hc Hi)
                  _ eq_refl) as [H1 [_ [H2 _]]].
  exact (conj H1 H2).
Defined.

(** orchestrator.py [list_available_tools] never raises.  Its result is
    [[]] or the [tools] value (one with a length) of a decoded object
    reply to GET /tools.  When [connect] times out it returns [[]] and the
    client is not disconnected.  When [connect] succeeds the fresh client
    has no cached tools, so GET /tools is always issued: a successful
    reply is returned, and the client is disconnected with its cache
    reset. *)
Theorem list_tools_outcome : forall loads url w r join,
  let res := list_available_tools loads url w r join in
  (snd res = JArr []
   \/ exists body o, r = HttpOk body /\ loads body = Some (JObj o)
        /\ snd res = obj_get o "tools" (JArr []) /\ has_len (snd res) = true)
  /\ (forall c1 e, connect loads (init_config url) w = (c1, Raise e) -> res = (c1, JArr []))
  /\ (forall c1 x, connect loads (init_config url) w = (c1, Ok x) ->
        connected (cl (fst res)) = false /\ tools_cache (cl (fst res)) = JNull
        /\ (forall body o, r = HttpOk body -> loads body = Some (JObj o) ->
              has_len (obj_get o "tools" (JArr [])) = true ->
              snd res = obj_get o "tools" (JArr []))).
Proof.
  intros loads url w r join res.
  assert (Htc : tools_cache (cl (fst (connect loads (init_config url) w))) = JNull)
    by (rewrite connect_tools_cache; reflexivity).
  unfold res, list_available_tools.
  destruct (connect loads (init_config url) w) as [c1 [x | e]] eqn:Hc; simpl in Htc.
  - unfold get_tools; rewrite Htc; simpl.
    destruct r as [msg | body]; simpl.
    + split; [left; reflexivity |].
      split; [intros ? ? H; discriminate H |].
      intros ? ? H; inversion H; subst.
      split; [reflexivity | split; [reflexivity | intros ? ? Hr; discriminate Hr]].
    + destruct (loads body) as [[| | | | | o] |] eqn:Hl; simpl;
        try (split; [left; reflexivity |];
             split; [intros ? ? H; discriminate H |];
             intros ? ? H; inversion H; subst;
             split; [reflexivity | split; [reflexivity |]];
             intros ? ? Hr Hl'; inversion Hr; subst; rewrite Hl in Hl';
             discriminate Hl').
      destruct (has_len (obj_get o "tools" (JArr []))) eqn:Hh; simpl.
      * split; [right; exists body, o; auto |].
        split; [intros ? ? H; discriminate H |].
        intros ? ? H; inversion H; subst.
        split; [reflexivity | split; [reflexivity |]].
        intros ? o' Hr Hl'; inversion Hr; subst; rewrite Hl in Hl'; inversion Hl'; reflexivity.
      * split; [left; reflexivity |].
        split; [intros ? ? H; discriminate H |].
        intros ? ? H; inversion H; subst.
        split; [reflexivity | split; [reflexivity |]].
        intros ? o' Hr Hl' Hh'; inversion Hr; subst; rewrite Hl in Hl'; inversion Hl'; subst.
        rewrite Hh in Hh'; discriminate Hh'.
  - split; [left; reflexivity |].
    split; [intros ? ? H; inversion H; reflexivity |].
    intros ? ? H; discriminate H.
Qed.

Lemma list_tools_outcome_witness :
  snd (list_available_tools mini_loads "http://172.16.16.54:8080/" w_handshake
         (HttpOk tools_text) []) = JArr [JNum 1; JNum 2]
  /\ snd (list_available_tools mini_loads "http://172.16.16.54:8080/" [(0%nat, LOpenOk)]
            (HttpOk tools_text) []) = JArr [].
Proof.
  assert (Hc : connect mini_loads (init_config "http://172.16.16.54:8080/") w_handshake
               = (fst (connect mini_loads (init_config "http://172.16.16.54:8080/") w_handshake),
                  Ok (JStr "abc123"))) by (vm_compute; reflexivity).
  assert (Ht : connect mini_loads (init_config "http://172.16.16.54:8080/") [(0%nat, LOpenOk)]
               = (fst (connect mini_loads (init_config "http://172.16.16.54:8080/")
                         [(0%nat, LOpenOk)]),
                  Raise (TimeoutError "Failed to establish SSE connection within timeout period")))
    by (vm_compute; reflexivity).
  split.
  - destruct (proj2 (proj2 (list_tools_outcome mini_loads "http://172.16.16.54:8080/"
                              w_handshake (HttpOk tools_text) [])) _ _ Hc) as [_ [_ H]].
    exact (H tools_text [("tools", JArr [JNum 1; JNum 2])] eq_refl eq_refl eq_refl).
  - rewrite (proj1 (proj2 (list_tools_outcome mini_loads "http://172.16.16.54:8080/"
                             [(0%nat, LOpenOk)] (HttpOk tools_text) [])) _ _ Ht).
    reflexivity.
Defined.

(** mcp_client.py [main]: parameters that [json.loads] rejects end the
    program with status 1 before a client is created.  Otherwise the
    [finally] clause always disconnects the client ([client_id],
    [connected], [running] and [tools_cache] reset), and the status is 0
    exactly when a result is printed.  When the server info is not a JSON
    object ([server_info.get] raises), [main] exits with status 1 before
    any tool invocation is sent. *)
Theorem main_run_exit : forall loads url tool ptext w info mid r w1 w2 join,
  let out := main_run loads url tool ptext w info mid r w1 w2 join in
  (loads ptext = None -> out = (1%nat, None, None))
  /\ (forall params, loads ptext = Some params ->
        exists code c printed, out = (code, Some c, printed)
        /\ client_id (cl c) = JNull /\ connected (cl c) = false /\ running (cl c) = false
        /\ tools_cache (cl c) = JNull /\ (code = 0%nat <-> printed <> None))
  /\ (forall params c1 x, loads ptext = Some params ->
        connect loads (init_config url) w = (c1, Ok x) ->
        (forall o, get_server_info loads info <> JObj o) ->
        exists c, out = (1%nat, Some c, None) /\ no_post (trace (cl c))).
Proof.
  intros loads url tool ptext w info mid r w1 w2 join out.
  split; [intro Hp; unfold out, main_run; rewrite Hp; reflexivity |].
  split.
  - intros params Hp; unfold out, main_run; rewrite Hp.
    destruct (connect loads (init_config url) w) as [c1 [x | e]].
    + destruct (get_server_info loads info) as [| | | | | o];
        try (do 3 eexists; split; [reflexivity |];
             destruct (disconnect_resets loads c1 join) as [H1 [H2 [H3 H4]]];
             repeat split; auto; [intro H; discriminate H | intros []; reflexivity]).
      destruct (invoke_tool loads c1 mid tool params 30 r w1 w2) as [c2 [v | e]];
        do 3 eexists; (split; [reflexivity |]);
        destruct (disconnect_resets loads c2 join) as [H1 [H2 [H3 H4]]];
        repeat split; auto; try (intro H; discriminate H).
      * intros _ H; discriminate H.
      * intros []; reflexivity.
    + do 3 eexists; split; [reflexivity |].
      destruct (disconnect_resets loads c1 join) as [H1 [H2 [H3 H4]]].
      repeat split; auto; [intro H; discriminate H | intros []; reflexivity].
  - intros params c1 x Hp Hc Hi; unfold out, main_run; rewrite Hp, Hc.
    exists (disconnect loads c1 join); split.
    + destruct (get_server_info loads info) as [| | | | | o]; try reflexivity.
      exfalso; exact (Hi o eq_refl).
    + apply disconnect_no_post.
      replace c1 with (fst (connect loads (init_config url) w)) by (rewrite Hc; reflexivity).
      apply connect_no_post; intros u p [].
Qed.

Lemma main_run_exit_witness :
  main_run mini_loads "http://172.16.16.54:8080/" "readDirectory" "{bad" w_handshake
    (HttpOk ack_text) "msg-1" (HttpOk ack_text) [] [] [] = (1%nat, None, None)
  /\ fst (fst (main_run mini_loads "http://172.16.16.54:8080/" "readDirectory" "{}"
                 w_handshake (HttpOk list_text) "msg-1" (HttpOk ack_text) [] [] [])) = 1%nat.
Proof.
  split.
  - exact (proj1 (main_run_exit mini_loads "http://172.16.16.54:8080/" "readDirectory" "{bad"
                    w_handshake (HttpOk ack_text) "msg-1" (HttpOk ack_text) [] [] []) eq_refl).
  - assert (Hc : connect mini_loads (init_config "http://172.16.16.54:8080/") w_handshake
                 = (fst (connect mini_loads (init_config "http://172.16.16.54:8080/")
                           w_handshake), Ok (JStr "abc123"))) by (vm_compute; reflexivity).
    assert (Hi : forall o, get_server_info mini_loads (HttpOk list_text) <> JObj o)
      by (intros o; vm_compute; discriminate).
    destruct (proj2 (proj2 (main_run_exit mini_loads "http://172.16.16.54:8080/" "readDirectory"
                              "{}" w_handshake (HttpOk list_text) "msg-1" (HttpOk ack_text)
                              [] [] [])) (JObj []) _ _ eq_refl Hc Hi) as [c [H _]].
    rewrite H; reflexivity.
Defined.
